(** * Historical-Backend: the artifact service of [index.js]

    A shallow embedding of the Express handlers of [index.js] over a model
    of the one MongoDB collection they use, and the properties of the
    like toggle, of creation, search, update and of the guarded listings.

    What is modelled, and how:
    - The handlers come first for the values that the clients of the
      service send: JSON primitives, and [undefined] for a missing key.
      There a string is a text in UTF-8, which the store keeps byte for
      byte, and an email in particular is a primitive.  Numbers are
      integers, of any size.
    - No handler checks what kind of value an email is.  [Wire] has the
      like toggle and the liked listing once more for an email that is any
      primitive or any array, and for strings with a lone surrogate, which
      the driver does not keep as they were sent; [like_handlers_agree]
      relates the two.
    - The collection is the list of its documents in insertion order.  Each
      driver call ([insertOne], [find], [findOne], [updateOne],
      [deleteOne]) is one atomic function on that list; it fails only for
      the reasons the store itself gives (duplicate [_id], a pattern it
      refuses); network failures are not modelled.
    - [new ObjectId(id)] accepts exactly the 24 character hexadecimal
      strings and throws on every other string.
    - [$regex] is spelled out for the patterns made of ordinary characters
      and the wildcard [.].  [get_history] is GET /history for such
      patterns in ASCII, and has no answer for others; [search_history] is
      GET /history for every search string, with the case table and the
      regular expression engine of the store as parameters.
    - [jwt.verify] and [jwt.sign] are parameters of the handlers that call
      them.
    - A like toggle in flight steps from one [await] to the next, so that
      the interleavings of concurrent toggles can be run.
    - A handler is a function from the request and the collection to the
      response and the collection afterwards; [try]/[catch] is the [result]
      type. *)

From Stdlib Require Import List String Ascii Bool ZArith NArith Arith Lia.
From Stdlib Require Import Permutation.
Import ListNotations.
Local Open Scope string_scope.
Local Open Scope list_scope.

(** ** JavaScript values *)

Inductive jsval : Type :=
| JUndefined
| JNull
| JBool (b : bool)
| JNum (n : Z)
| JStr (s : string).

(** [!!v] *)
Definition truthy (v : jsval) : bool :=
  match v with
  | JUndefined | JNull => false
  | JBool b => b
  | JNum n => negb (n =? 0)%Z
  | JStr s => negb (s =? "")
  end.

(** [a === b], which on primitives is also the SameValueZero of
    [Array.prototype.includes] and the equality of the store. *)
Definition jsval_eqb (a b : jsval) : bool :=
  match a, b with
  | JUndefined, JUndefined => true
  | JNull, JNull => true
  | JBool x, JBool y => Bool.eqb x y
  | JNum x, JNum y => (x =? y)%Z
  | JStr x, JStr y => (x =? y)
  | _, _ => false
  end.

(** The driver serialises [undefined] as [null] ([ignoreUndefined] is off). *)
Definition bson (v : jsval) : jsval :=
  match v with
  | JUndefined => JNull
  | _ => v
  end.

(** [Array.prototype.includes] *)
Definition includes (l : list jsval) (v : jsval) : bool :=
  existsb (jsval_eqb v) l.

(** The value of [addedBy]: a primitive (or nothing), or an object, of which
    the handlers read the key [email] only. *)
Inductive jsobj : Type :=
| Prim (v : jsval)
| Obj (email : jsval).

(** [o?.email] *)
Definition opt_email (o : jsobj) : jsval :=
  match o with
  | Prim _ => JUndefined
  | Obj email => email
  end.

Definition jsobj_eqb (a b : jsobj) : bool :=
  match a, b with
  | Prim x, Prim y => jsval_eqb x y
  | Obj x, Obj y => jsval_eqb x y
  | _, _ => false
  end.

(** ** Exceptions *)

Inductive error : Type :=
| BSONError          (* thrown by [new ObjectId] *)
| MongoServerError.  (* thrown by a driver call *)

Inductive result (A : Type) : Type :=
| Ok (a : A)
| Throw (e : error).

Arguments Ok {A} a.
Arguments Throw {A} e.

Definition bind {A B : Type} (r : result A) (k : A -> result B) : result B :=
  match r with
  | Ok a => k a
  | Throw e => Throw e
  end.

Notation "x <- r ;; k" := (bind r (fun x => k))
  (at level 61, r at next level, right associativity).

(** ** ObjectId *)

Definition hex_digit (c : ascii) : option N :=
  let n := N_of_ascii c in
  if ((48 <=? n) && (n <=? 57))%N then Some (n - 48)%N
  else if ((97 <=? n) && (n <=? 102))%N then Some (n - 87)%N
  else if ((65 <=? n) && (n <=? 70))%N then Some (n - 55)%N
  else None.

Fixpoint hex_value (s : string) (acc : N) : option N :=
  match s with
  | EmptyString => Some acc
  | String c s' =>
      match hex_digit c with
      | Some d => hex_value s' (16 * acc + d)%N
      | None => None
      end
  end.

(** [new ObjectId(id)]: the twelve bytes as a number, or a throw. *)
Definition ObjectId (id : string) : result N :=
  if (String.length id =? 24)%nat then
    match hex_value id 0 with
    | Some n => Ok n
    | None => Throw BSONError
    end
  else Throw BSONError.

(** The [_id] of a stored document: an ObjectId of the driver, or the
    primitive the caller put under [_id]. *)
Inductive docid : Type :=
| Oid (n : N)
| Custom (v : jsval).

Definition docid_eqb (a b : docid) : bool :=
  match a, b with
  | Oid x, Oid y => (x =? y)%N
  | Custom x, Custom y => jsval_eqb x y
  | _, _ => false
  end.

(** ** Documents and the collection *)

Record artifact : Type := mkArtifact {
  _id : docid;
  name : jsval;
  image : jsval;
  type : jsval;
  description : jsval;
  createdAt : jsval;
  discoveredAt : jsval;
  discoveredBy : jsval;
  location : jsval;
  addedBy : jsobj;
  likedBy : list jsval;
  likeCount : Z
}.

Definition collection : Type := list artifact.

(** ** Regular expressions of the store

    [$regex] is matched by PCRE, unanchored, and with [$options: "i"]
    without regard to the case of ASCII letters.  The patterns covered are
    those made of ordinary ASCII characters, which stand for themselves, and
    of the wildcard [.], which stands for any one character but a line feed
    (one UTF-8 code point of the subject); [compile] gives [None] on every
    other pattern. *)

Inductive atom : Type :=
| Lit (c : ascii)
| Any.

Definition regex : Type := list atom.

Definition is_meta (c : ascii) : bool :=
  existsb (Ascii.eqb c) (list_ascii_of_string "\^$.[]|()?*+{}").

(** An ASCII character other than NUL, which no pattern may hold. *)
Definition ordinary (c : ascii) : bool :=
  let n := N_of_ascii c in ((1 <=? n) && (n <=? 127))%N.

Fixpoint compile (pattern : string) : option regex :=
  match pattern with
  | EmptyString => Some []
  | String c rest =>
      match compile rest with
      | None => None
      | Some re =>
          if Ascii.eqb c "." then Some (Any :: re)
          else if is_meta c || negb (ordinary c) then None
          else Some (Lit c :: re)
      end
  end.

Definition lower (c : ascii) : ascii :=
  let n := N_of_ascii c in
  if ((65 <=? n) && (n <=? 90))%N then ascii_of_N (n + 32) else c.

Definition is_continuation (c : ascii) : bool :=
  let n := N_of_ascii c in ((128 <=? n) && (n <=? 191))%N.

Fixpoint skip_continuation (s : string) : string :=
  match s with
  | String c s' => if is_continuation c then skip_continuation s' else s
  | EmptyString => s
  end.

Definition line_feed : ascii := ascii_of_N 10.

(** The pattern matches a prefix of the subject. *)
Fixpoint match_here (re : regex) (s : string) : bool :=
  match re with
  | [] => true
  | Lit c :: re' =>
      match s with
      | String d s' => Ascii.eqb (lower c) (lower d) && match_here re' s'
      | EmptyString => false
      end
  | Any :: re' =>
      match s with
      | String d s' =>
          negb (Ascii.eqb d line_feed) && match_here re' (skip_continuation s')
      | EmptyString => false
      end
  end.

(** The pattern matches somewhere in the subject. *)
Fixpoint regex_search (re : regex) (s : string) : bool :=
  match_here re s
  || match s with
     | String _ s' => regex_search re s'
     | EmptyString => false
     end.

(** ** Queries and updates *)

Inductive query : Type :=
| All                             (* {} *)
| NameRegex (re : regex)          (* { name: { $regex, $options: "i" } } *)
| AddedByEmail (email : jsval)    (* { "addedBy.email": email } *)
| LikedBy (email : jsval)         (* { likedBy: email } *)
| ById (oid : N).                 (* { _id: new ObjectId(id) } *)

(** Equality with [null] also selects the documents without the key. *)
Definition field_matches (stored wanted : jsval) : bool :=
  match bson wanted with
  | JNull => jsval_eqb (bson stored) JNull
  | w => jsval_eqb stored w
  end.

Definition matches (q : query) (a : artifact) : bool :=
  match q with
  | All => true
  | NameRegex re =>
      match name a with
      | JStr s => regex_search re s
      | _ => false
      end
  | AddedByEmail email => field_matches (opt_email (addedBy a)) email
  | LikedBy email => includes (likedBy a) (bson email)
  | ById oid => docid_eqb (_id a) (Oid oid)
  end.

Inductive update : Type :=
| IncPull (inc : Z) (pull : jsval)
    (* { $inc: { likeCount: inc }, $pull: { likedBy: pull } } *)
| IncAddToSet (inc : Z) (add : jsval)
    (* { $inc: { likeCount: inc }, $addToSet: { likedBy: add } } *)
| SetFields (name image type description
             createdAt discoveredAt discoveredBy location : jsval).
    (* { $set: { name, image, ..., location } } *)

(** [$pull] drops every element equal to the value. *)
Definition pull (v : jsval) (l : list jsval) : list jsval :=
  filter (fun x => negb (jsval_eqb (bson v) x)) l.

(** [$addToSet] appends the value unless the array holds it. *)
Definition addToSet (v : jsval) (l : list jsval) : list jsval :=
  if includes l (bson v) then l else l ++ [bson v].

Definition apply_update (u : update) (a : artifact) : artifact :=
  match u with
  | IncPull inc v =>
      mkArtifact (_id a) (name a) (image a) (type a) (description a)
        (createdAt a) (discoveredAt a) (discoveredBy a) (location a)
        (addedBy a) (pull v (likedBy a)) (likeCount a + inc)
  | IncAddToSet inc v =>
      mkArtifact (_id a) (name a) (image a) (type a) (description a)
        (createdAt a) (discoveredAt a) (discoveredBy a) (location a)
        (addedBy a) (addToSet v (likedBy a)) (likeCount a + inc)
  | SetFields n i t d c da db l =>
      mkArtifact (_id a) (bson n) (bson i) (bson t) (bson d)
        (bson c) (bson da) (bson db) (bson l)
        (addedBy a) (likedBy a) (likeCount a)
  end.

Fixpoint list_eqb {A : Type} (eqb : A -> A -> bool) (l m : list A) : bool :=
  match l, m with
  | [], [] => true
  | x :: l', y :: m' => eqb x y && list_eqb eqb l' m'
  | _, _ => false
  end.

Definition artifact_eqb (a b : artifact) : bool :=
  docid_eqb (_id a) (_id b)
  && jsval_eqb (name a) (name b)
  && jsval_eqb (image a) (image b)
  && jsval_eqb (type a) (type b)
  && jsval_eqb (description a) (description b)
  && jsval_eqb (createdAt a) (createdAt b)
  && jsval_eqb (discoveredAt a) (discoveredAt b)
  && jsval_eqb (discoveredBy a) (discoveredBy b)
  && jsval_eqb (location a) (location b)
  && jsobj_eqb (addedBy a) (addedBy b)
  && list_eqb jsval_eqb (likedBy a) (likedBy b)
  && (likeCount a =? likeCount b)%Z.

(** ** The driver *)

Definition find (q : query) (db : collection) : list artifact :=
  filter (matches q) db.

Fixpoint findOne (q : query) (db : collection) : option artifact :=
  match db with
  | [] => None
  | a :: db' => if matches q a then Some a else findOne q db'
  end.

Record updateResult : Type := mkUpdateResult {
  matchedCount : nat;
  modifiedCount : nat
}.

(** The first document the query selects is rewritten; it counts as
    modified when the rewriting changed it. *)
Fixpoint updateOne (q : query) (u : update) (db : collection)
  : updateResult * collection :=
  match db with
  | [] => (mkUpdateResult 0 0, [])
  | a :: db' =>
      if matches q a then
        let a' := apply_update u a in
        (mkUpdateResult 1 (if artifact_eqb a a' then 0 else 1), a' :: db')
      else
        let (r, db'') := updateOne q u db' in (r, a :: db'')
  end.

(** [deleteOne], with its [deletedCount]. *)
Fixpoint deleteOne (q : query) (db : collection) : nat * collection :=
  match db with
  | [] => (0, [])
  | a :: db' =>
      if matches q a then (1, db')
      else let (n, db'') := deleteOne q db' in (n, a :: db'')
  end.

(** [insertOne]: a document without [_id] (or with a null one) gets the
    ObjectId [gen] the driver generates; an [_id] already in the collection
    is a duplicate key error.  The result is the [insertedId]. *)
Definition insertOne (gen : N) (supplied : jsval) (doc : docid -> artifact)
    (db : collection) : result (docid * collection) :=
  let id := match supplied with
            | JUndefined | JNull => Oid gen
            | v => Custom v
            end in
  if existsb (fun a => docid_eqb (_id a) id) db then Throw MongoServerError
  else Ok (id, db ++ [doc id]).

(** ** Requests and responses *)

(** The keys of a JSON request body that some handler reads or stores. *)
Record body : Type := mkBody {
  body_id : jsval;             (* _id *)
  body_name : jsval;
  body_image : jsval;
  body_type : jsval;
  body_description : jsval;
  body_createdAt : jsval;
  body_discoveredAt : jsval;
  body_discoveredBy : jsval;
  body_location : jsval;
  body_addedBy : jsobj;
  body_likedBy : jsval;
  body_likeCount : jsval;
  body_email : jsval
}.

Record request : Type := mkRequest {
  cookies_token : option string;   (* req.cookies?.token *)
  query_search : option string;    (* req.query.search *)
  query_email : option string;     (* req.query.email *)
  params_id : string;              (* req.params.id *)
  req_body : body                  (* req.body *)
}.

(** A query parameter as a value: the string, or [undefined]. *)
Definition of_query (p : option string) : jsval :=
  match p with
  | Some s => JStr s
  | None => JUndefined
  end.

(** The payload of a verified token, [req.user]. *)
Record claims : Type := mkClaims {
  user_email : jsval
}.

Inductive payload : Type :=
| Message (message : string)
| Added (message : string) (insertedId : docid)
| Toggled (message : string) (liked : bool)
| Failure (message : string) (e : error)
| Documents (docs : list artifact)
| Document (doc : artifact).

Record response : Type := reply {
  status : nat;
  sent : payload
}.

Definition try_catch {A : Type} (block : result A) (handler : error -> A) : A :=
  match block with
  | Ok a => a
  | Throw e => handler e
  end.

(** ** The handlers *)

(** POST /history.  [gen] is the ObjectId the driver would generate. *)
Definition post_history (gen : N) (req : request) (db : collection)
  : response * collection :=
  let artifact := req_body req in
  if negb (truthy (opt_email (body_addedBy artifact))) then
    (reply 400 (Message "User email is required to add an artifact"), db)
  else
    (* artifact.likedBy = []; artifact.likeCount = 0 *)
    let doc := fun id =>
      mkArtifact id (body_name artifact) (body_image artifact)
        (body_type artifact) (body_description artifact)
        (body_createdAt artifact) (body_discoveredAt artifact)
        (body_discoveredBy artifact) (body_location artifact)
        (body_addedBy artifact) [] 0 in
    try_catch
      (r <- insertOne gen (body_id artifact) doc db ;;
       let (insertedId, db') := r in
       let present := match insertedId with
                      | Oid _ => true
                      | Custom v => truthy v
                      end in
       if present then
         Ok (reply 201 (Added "Artifact added successfully" insertedId), db')
       else Ok (reply 400 (Message "Failed to add artifact"), db'))
      (fun error => (reply 500 (Failure "Server error" error), db)).

(** GET /history.  [None] when the search pattern is outside the patterns
    [compile] covers. *)
Definition get_history (req : request) (db : collection)
  : option (response * collection) :=
  let search := query_search req in
  let query :=
    if truthy (of_query search) then
      match search with
      | Some pattern => option_map NameRegex (compile pattern)
      | None => Some All
      end
    else Some All in
  match query with
  | Some q => Some (reply 200 (Documents (find q db)), db)
  | None => None
  end.

(** PATCH /artifact/:id/like *)
Definition patch_artifact_like (req : request) (db : collection)
  : response * collection :=
  let id := params_id req in
  let email := body_email (req_body req) in
  if negb (truthy email) then
    (reply 400 (Message "Email is required to toggle like status"), db)
  else
    try_catch
      (oid <- ObjectId id ;;
       match findOne (ById oid) db with
       | None => Ok (reply 404 (Message "Artifact not found"), db)
       | Some artifact =>
           (* artifact.likedBy || [] is artifact.likedBy, an array *)
           let hasLiked := includes (likedBy artifact) email in
           let update := if hasLiked then IncPull (-1) email
                         else IncAddToSet 1 email in
           oid' <- ObjectId id ;;
           let (result, db') := updateOne (ById oid') update db in
           if (modifiedCount result =? 1)%nat then
             Ok (reply 200 (Toggled "Toggle like status successful"
                              (negb hasLiked)), db')
           else Ok (reply 500 (Message "Failed to toggle like status"), db')
       end)
      (fun error => (reply 500 (Failure "Server error" error), db)).

(** PATCH /artifact/:id *)
Definition patch_artifact (req : request) (db : collection)
  : response * collection :=
  let id := params_id req in
  let b := req_body req in
  try_catch
    (oid <- ObjectId id ;;
     let query := ById oid in
     let update :=
       SetFields (body_name b) (body_image b) (body_type b)
         (body_description b) (body_createdAt b) (body_discoveredAt b)
         (body_discoveredBy b) (body_location b) in
     let (result, db') := updateOne query update db in
     if (modifiedCount result =? 1)%nat then
       Ok (reply 200 (Message "Artifact updated successfully"), db')
     else
       Ok (reply 404 (Message "Artifact not found or no changes made"), db'))
    (fun error => (reply 500 (Failure "Server error" error), db)).

(** DELETE /artifact/:id *)
Definition delete_artifact (req : request) (db : collection)
  : response * collection :=
  let id := params_id req in
  try_catch
    (oid <- ObjectId id ;;
     let (deletedCount, db') := deleteOne (ById oid) db in
     if (deletedCount =? 1)%nat then
       Ok (reply 200 (Message "Artifact deleted successfully"), db')
     else Ok (reply 404 (Message "Artifact not found"), db'))
    (fun error => (reply 500 (Failure "Server error" error), db)).

(** GET /artifact/:id *)
Definition get_artifact (req : request) (db : collection)
  : response * collection :=
  let id := params_id req in
  try_catch
    (oid <- ObjectId id ;;
     match findOne (ById oid) db with
     | Some artifact => Ok (reply 200 (Document artifact), db)
     | None => Ok (reply 404 (Message "Artifact not found"), db)
     end)
    (fun error => (reply 500 (Failure "Server error" error), db)).

(** The handler of GET /my-artifacts, behind [verifyToken]. *)
Definition my_artifacts (user : claims) (req : request) (db : collection)
  : response * collection :=
  let email := of_query (query_email req) in
  if negb (jsval_eqb (user_email user) (of_query (query_email req))) then
    (reply 403 (Message "Forbidden"), db)
  else if negb (truthy email) then
    (reply 400 (Message "Email is required"), db)
  else
    (reply 200 (Documents (find (AddedByEmail email) db)), db).

(** The handler of GET /liked-artifacts, behind [verifyToken]. *)
Definition liked_artifacts (user : claims) (req : request) (db : collection)
  : response * collection :=
  let email := user_email user in
  let likedArtifacts := find (LikedBy email) db in
  if (0 <? List.length likedArtifacts)%nat then
    (reply 200 (Documents likedArtifacts), db)
  else (reply 404 (Message "No liked artifacts found"), db).

Section Guarded.

(** [jwt.verify] with the secret of the process: the decoded payload, or
    nothing when the token is rejected. *)
Variable jwt_verify : string -> option claims.

(** The middleware: [next] runs with [req.user] set to the payload. *)
Definition verifyToken (req : request)
    (next : claims -> request -> collection -> response * collection)
    (db : collection) : response * collection :=
  match cookies_token req with
  | None => (reply 401 (Message "Unauthorized"), db)
  | Some token =>
      if token =? "" then (reply 401 (Message "Unauthorized"), db)
      else
        match jwt_verify token with
        | None => (reply 401 (Message "Unauthorized"), db)
        | Some decoded => next decoded req db
        end
  end.

(** GET /my-artifacts *)
Definition get_my_artifacts (req : request) (db : collection)
  : response * collection :=
  verifyToken req my_artifacts db.

(** GET /liked-artifacts *)
Definition get_liked_artifacts (req : request) (db : collection)
  : response * collection :=
  verifyToken req liked_artifacts db.

End Guarded.

(** ** Toggles in flight

    The like handler awaits the store twice, at [findOne] and at
    [updateOne]; each call is atomic in the store, and between the two the
    store may serve other requests.  A toggle in flight is at one of three
    points; [toggle_step] runs it up to its next await. *)

Inductive toggle : Type :=
| Received (req : request)
| Decided (req : request) (hasLiked : bool)
| Responded (res : response).

Definition toggle_step (t : toggle) (db : collection) : toggle * collection :=
  match t with
  | Received req =>
      let id := params_id req in
      let email := body_email (req_body req) in
      if negb (truthy email) then
        (Responded
           (reply 400 (Message "Email is required to toggle like status")), db)
      else
        try_catch
          (oid <- ObjectId id ;;
           match findOne (ById oid) db with
           | None => Ok (Responded (reply 404 (Message "Artifact not found")), db)
           | Some artifact =>
               Ok (Decided req (includes (likedBy artifact) email), db)
           end)
          (fun error => (Responded (reply 500 (Failure "Server error" error)), db))
  | Decided req hasLiked =>
      let id := params_id req in
      let email := body_email (req_body req) in
      let update := if hasLiked then IncPull (-1) email
                    else IncAddToSet 1 email in
      try_catch
        (oid' <- ObjectId id ;;
         let (result, db') := updateOne (ById oid') update db in
         if (modifiedCount result =? 1)%nat then
           Ok (Responded (reply 200 (Toggled "Toggle like status successful"
                                       (negb hasLiked))), db')
         else
           Ok (Responded (reply 500 (Message "Failed to toggle like status")),
               db'))
        (fun error => (Responded (reply 500 (Failure "Server error" error)), db))
  | Responded _ => (t, db)
  end.

(** The toggle at position [i] takes its next step. *)
Fixpoint step_at (i : nat) (ts : list toggle) (db : collection)
  : list toggle * collection :=
  match ts with
  | [] => ([], db)
  | t :: ts' =>
      match i with
      | O => let (t', db') := toggle_step t db in (t' :: ts', db')
      | S j => let (ts'', db') := step_at j ts' db in (t :: ts'', db')
      end
  end.

(** An interleaving is the list of the positions that step, in order. *)
Fixpoint run (schedule : list nat) (ts : list toggle) (db : collection)
  : list toggle * collection :=
  match schedule with
  | [] => (ts, db)
  | i :: rest => let (ts', db') := step_at i ts db in run rest ts' db'
  end.

Definition responded (t : toggle) : bool :=
  match t with
  | Responded _ => true
  | _ => false
  end.

(** Requests handled one after the other. *)
Fixpoint toggles (reqs : list request) (db : collection)
  : list response * collection :=
  match reqs with
  | [] => ([], db)
  | req :: rest =>
      let (res, db') := patch_artifact_like req db in
      let (rs, db'') := toggles rest db' in
      (res :: rs, db'')
  end.

(** The update document the like handler builds on reading [a]. *)
Definition like_update (a : artifact) (email : jsval) : update :=
  if includes (likedBy a) email then IncPull (-1) email
  else IncAddToSet 1 email.

(** ** Toggles by distinct emails on a fresh artifact

    What a toggle of such a run can be: not yet served, served by [findOne]
    with [hasLiked] false, or answered with [liked: true]. *)

Inductive on_course (req : request) : toggle -> Prop :=
| on_course_received : on_course req (Received req)
| on_course_decided : on_course req (Decided req false)
| on_course_responded :
    on_course req
      (Responded (reply 200 (Toggled "Toggle like status successful" true))).

Definition email_of (req : request) : jsval := body_email (req_body req).

(** The emails of the requests that were answered. *)
Fixpoint answered (reqs : list request) (ts : list toggle) : list jsval :=
  match reqs, ts with
  | req :: reqs', t :: ts' =>
      if responded t then email_of req :: answered reqs' ts'
      else answered reqs' ts'
  | _, _ => []
  end.

(** What every interleaving keeps: each toggle is on course, [likedBy]
    holds the emails of the answered ones, and [likeCount] is its length. *)
Definition in_step (oid : N) (reqs : list request) (ts : list toggle)
    (db : collection) : Prop :=
  Forall2 on_course reqs ts
  /\ exists a,
       findOne (ById oid) db = Some a
       /\ Permutation (likedBy a) (answered reqs ts)
       /\ likeCount a = Z.of_nat (List.length (likedBy a)).

(** ** The properties in the words of the specification *)

Definition jsval_eq_dec (a b : jsval) : {a = b} + {a <> b}.
Proof.
  decide equality;
    [apply Bool.bool_dec | apply Z.eq_dec | apply string_dec].
Defined.

(** [|likedBy|], the number of the identities in [likedBy]. *)
Definition cardinal (l : list jsval) : nat :=
  List.length (nodup jsval_eq_dec l).

(** [likeCount == |likedBy|] *)
Definition consistent (a : artifact) : Prop :=
  likeCount a = Z.of_nat (cardinal (likedBy a)).

Fixpoint lowercase (s : string) : string :=
  match s with
  | EmptyString => EmptyString
  | String c s' => String (lower c) (lowercase s')
  end.

(** Some artifact with the ObjectId the string [id] denotes is stored. *)
Definition stored_under (id : string) (db : collection) : Prop :=
  exists (oid : N) (a : artifact),
    ObjectId id = Ok oid /\ In a db /\ _id a = Oid oid.

(** ** Sample data: the end-to-end example of the specification *)

Definition no_body : body :=
  mkBody JUndefined JUndefined JUndefined JUndefined JUndefined JUndefined
    JUndefined JUndefined JUndefined (Prim JUndefined) JUndefined JUndefined
    JUndefined.

(** A request to GET /history with the given [search] parameter. *)
Definition search_request (search : option string) : request :=
  mkRequest None search None "" no_body.

(** The body [{ name, addedBy: { email } }]. *)
Definition new_artifact (name email : jsval) : body :=
  mkBody JUndefined name JUndefined JUndefined JUndefined JUndefined
    JUndefined JUndefined JUndefined (Obj email) JUndefined JUndefined
    JUndefined.

(** A request with the body [{ email }] for the path parameter [id]. *)
Definition like_request (id : string) (email : jsval) : request :=
  mkRequest None None None id
    (mkBody JUndefined JUndefined JUndefined JUndefined JUndefined JUndefined
       JUndefined JUndefined JUndefined (Prim JUndefined) JUndefined
       JUndefined email).

Definition urn_id : string := "65a1b2c3d4e5f60718293a4b".

Definition urn_oid : N :=
  Eval vm_compute in
    match ObjectId urn_id with
    | Ok n => n
    | Throw _ => 0%N
    end.

(** The collection after [{ name: "Urn", addedBy: { email: "u@x.com" } }]
    was posted to the empty collection and stored under [urn_oid]. *)
Definition urn_db : collection :=
  Eval vm_compute in
    snd (post_history urn_oid
           (mkRequest None None None ""
              (new_artifact (JStr "Urn") (JStr "u@x.com"))) []).

Definition urn : artifact :=
  mkArtifact (Oid urn_oid) (JStr "Urn") JUndefined JUndefined JUndefined
    JUndefined JUndefined JUndefined JUndefined (Obj (JStr "u@x.com")) [] 0.

(** A verifier that accepts the one token ["t0k3n"], issued for
    [b@x.com]. *)
Definition sample_verify (token : string) : option claims :=
  if token =? "t0k3n" then Some (mkClaims (JStr "b@x.com")) else None.

(** ** Sessions: POST /jwt and POST /logout

    Both answer 200 with [{ success: true }] and a cookie header; neither
    looks at the collection. *)

Record cookie_options : Type := mkCookieOptions {
  httpOnly : bool;
  secure : bool
}.

Inductive cookie_header : Type :=
| SetCookie (name value : string) (options : cookie_options)
    (* res.cookie(name, value, options) *)
| ClearCookie (name : string) (options : cookie_options).
    (* res.clearCookie(name, options) *)

Record session_response : Type := mkSessionResponse {
  header : cookie_header;
  success : bool
}.

Section Session.

(** [jwt.sign(user, secret, { expiresIn: "365d" })] with the secret of the
    process. *)
Variable jwt_sign : body -> string.

(** POST /jwt *)
Definition post_jwt (req : request) : session_response :=
  let user := req_body req in
  let token := jwt_sign user in
  mkSessionResponse (SetCookie "token" token (mkCookieOptions true false)) true.

End Session.

(** POST /logout *)
Definition post_logout (req : request) : session_response :=
  mkSessionResponse (ClearCookie "token" (mkCookieOptions true false)) true.

(** A client that does what the cookie header says with its [token]
    cookie, and presents the cookie with its next request. *)
Definition keep_cookie (res : session_response) (jar : option string)
  : option string :=
  match header res with
  | SetCookie name value _ => if name =? "token" then Some value else jar
  | ClearCookie name _ => if name =? "token" then None else jar
  end.

Definition present (jar : option string) (req : request) : request :=
  mkRequest jar (query_search req) (query_email req) (params_id req)
    (req_body req).

(** ** The routes

    A call of one of the routes that [run] registers on the collection, and
    the collection it leaves. *)

Inductive call : Type :=
| PostHistory (gen : N) (req : request)
| GetHistory (req : request)
| GetMyArtifacts (req : request)
| PatchArtifactLike (req : request)
| PatchArtifact (req : request)
| DeleteArtifact (req : request)
| GetArtifact (req : request)
| GetLikedArtifacts (req : request).

Definition serve (jwt_verify : string -> option claims) (c : call)
    (db : collection) : collection :=
  match c with
  | PostHistory gen req => snd (post_history gen req db)
  | GetHistory req =>
      match get_history req db with
      | Some r => snd r
      | None => db
      end
  | GetMyArtifacts req => snd (get_my_artifacts jwt_verify req db)
  | PatchArtifactLike req => snd (patch_artifact_like req db)
  | PatchArtifact req => snd (patch_artifact req db)
  | DeleteArtifact req => snd (delete_artifact req db)
  | GetArtifact req => snd (get_artifact req db)
  | GetLikedArtifacts req => snd (get_liked_artifacts jwt_verify req db)
  end.

Fixpoint serve_all (jwt_verify : string -> option claims) (cs : list call)
    (db : collection) : collection :=
  match cs with
  | [] => db
  | c :: rest => serve_all jwt_verify rest (serve jwt_verify c db)
  end.

(** What the routes keep of every stored document: a creator with an
    email, a [likedBy] of emails without repetition, and their number as
    [likeCount]. *)
Definition sound (a : artifact) : Prop :=
  truthy (opt_email (addedBy a)) = true
  /\ NoDup (likedBy a)
  /\ Forall (fun email => truthy email = true) (likedBy a)
  /\ likeCount a = Z.of_nat (List.length (likedBy a)).

(** ... and of the collection: no [_id] twice. *)
Definition well_kept (db : collection) : Prop :=
  NoDup (map _id db) /\ Forall sound db.

(** The document [a] with other likes. *)
Definition with_likes (l : list jsval) (n : Z) (a : artifact) : artifact :=
  mkArtifact (_id a) (name a) (image a) (type a) (description a)
    (createdAt a) (discoveredAt a) (discoveredBy a) (location a)
    (addedBy a) l n.

(** A verifier and a signer for the samples: one token, whatever the
    payload. *)
Definition sample_sign (user : body) : string := "t0k3n".

(** The [_id] that [insertOne] stores a document under. *)
Definition assigned_id (gen : N) (supplied : jsval) : docid :=
  match supplied with
  | JUndefined | JNull => Oid gen
  | v => Custom v
  end.

(** The document POST /history stores for the body [b] under [id]. *)
Definition created (id : docid) (b : body) : artifact :=
  mkArtifact id (body_name b) (body_image b) (body_type b)
    (body_description b) (body_createdAt b) (body_discoveredAt b)
    (body_discoveredBy b) (body_location b) (body_addedBy b) [] 0.

(** [result.insertedId] as a condition. *)
Definition id_truthy (id : docid) : bool :=
  match id with
  | Oid _ => true
  | Custom v => truthy v
  end.

(** A pattern with its letters in lower case. *)
Definition fold_atom (x : atom) : atom :=
  match x with
  | Lit c => Lit (lower c)
  | Any => Any
  end.

(** ** Emails as they come

    The like toggle takes its email from the request body and the liked
    listing takes it from the token; neither checks what kind of value it
    is.  [Wire] is these two routes once more, for an email that is any
    JSON primitive or any array, and with what the driver makes of a string
    on its way into the store.  The keys of a document that the two routes
    leave alone are as above.

    A string is read here as the JavaScript string whose UTF-16 code units
    it spells in (generalised) UTF-8, so that a surrogate without its pair
    is the three bytes ED A0..BF 80..BF.  An object as email is not
    represented: what the store makes of it depends on its keys (one that
    starts with [$] is an operator in a query) and on the version of the
    store. *)

Module Wire.

#[warnings="-register-all"]
Inductive json : Type :=
| Scalar (v : jsval)
| Array (elems : list json).

(** [!!v] *)
Definition truthy (v : json) : bool :=
  match v with
  | Scalar a => truthy a
  | Array _ => true
  end.

(** The bytes [c1 c2 c3] spell a surrogate. *)
Definition surrogate (c1 c2 c3 : ascii) : bool :=
  ((N_of_ascii c1 =? 237)
   && (160 <=? N_of_ascii c2) && (N_of_ascii c2 <=? 191)
   && (128 <=? N_of_ascii c3) && (N_of_ascii c3 <=? 191))%N.

(** U+FFFD, the replacement character. *)
Definition replacement : string :=
  String (ascii_of_N 239) (String (ascii_of_N 191)
    (String (ascii_of_N 189) EmptyString)).

(** The string as the driver writes it, in UTF-8: every surrogate without
    its pair becomes U+FFFD ([String.prototype.toWellFormed] does the
    same). *)
Fixpoint toWellFormed (s : string) : string :=
  match s with
  | String c1 (String c2 (String c3 rest) as t) =>
      if surrogate c1 c2 c3 then (replacement ++ toWellFormed rest)%string
      else String c1 (toWellFormed t)
  | String c1 t => String c1 (toWellFormed t)
  | EmptyString => EmptyString
  end.

(** The value as the store holds it, and as a handler reads it back. *)
Definition bson_scalar (v : jsval) : jsval :=
  match v with
  | JStr s => JStr (toWellFormed s)
  | _ => bson v
  end.

Fixpoint bson (v : json) : json :=
  match v with
  | Scalar a => Scalar (bson_scalar a)
  | Array elems => Array (map bson elems)
  end.

(** SameValueZero, the test of [Array.prototype.includes]: primitives by
    value, and an array only with itself, which no array that was read from
    the store is. *)
Definition sameValueZero (a b : json) : bool :=
  match a, b with
  | Scalar x, Scalar y => jsval_eqb x y
  | _, _ => false
  end.

(** [Array.prototype.includes] *)
Definition includes (l : list json) (v : json) : bool :=
  existsb (sameValueZero v) l.

(** The equality of the store: by value, arrays element by element. *)
Fixpoint json_eqb (a b : json) : bool :=
  match a, b with
  | Scalar x, Scalar y => jsval_eqb x y
  | Array l, Array m =>
      (fix all (l m : list json) : bool :=
         match l, m with
         | [], [] => true
         | x :: l', y :: m' => json_eqb x y && all l' m'
         | _, _ => false
         end) l m
  | _, _ => false
  end.

(** The stored array holds the value. *)
Definition holds (l : list json) (v : json) : bool :=
  existsb (json_eqb v) l.

Record artifact : Type := mkArtifact {
  _id : docid;
  name : jsval;
  image : jsval;
  type : jsval;
  description : jsval;
  createdAt : jsval;
  discoveredAt : jsval;
  discoveredBy : jsval;
  location : jsval;
  addedBy : jsobj;
  likedBy : list json;
  likeCount : Z
}.

Definition collection : Type := list artifact.

Inductive update : Type :=
| IncPull (inc : Z) (pull : json)
    (* { $inc: { likeCount: inc }, $pull: { likedBy: pull } } *)
| IncAddToSet (inc : Z) (add : json).
    (* { $inc: { likeCount: inc }, $addToSet: { likedBy: add } } *)

(** [$pull] drops every element equal to the value. *)
Definition pull (v : json) (l : list json) : list json :=
  filter (fun x => negb (json_eqb (bson v) x)) l.

(** [$addToSet] appends the value unless the array holds it. *)
Definition addToSet (v : json) (l : list json) : list json :=
  if holds l (bson v) then l else l ++ [bson v].

Definition apply_update (u : update) (a : artifact) : artifact :=
  match u with
  | IncPull inc v =>
      mkArtifact (_id a) (name a) (image a) (type a) (description a)
        (createdAt a) (discoveredAt a) (discoveredBy a) (location a)
        (addedBy a) (pull v (likedBy a)) (likeCount a + inc)
  | IncAddToSet inc v =>
      mkArtifact (_id a) (name a) (image a) (type a) (description a)
        (createdAt a) (discoveredAt a) (discoveredBy a) (location a)
        (addedBy a) (addToSet v (likedBy a)) (likeCount a + inc)
  end.

(** [findOne({ _id: oid })] *)
Fixpoint findOne (oid : N) (db : collection) : option artifact :=
  match db with
  | [] => None
  | a :: db' => if docid_eqb (_id a) (Oid oid) then Some a else findOne oid db'
  end.

(** The update changed one of the two keys it writes. *)
Definition modified (a a' : artifact) : bool :=
  negb ((likeCount a =? likeCount a')%Z
        && list_eqb json_eqb (likedBy a) (likedBy a')).

(** [updateOne({ _id: oid }, u)] *)
Fixpoint updateOne (oid : N) (u : update) (db : collection)
  : updateResult * collection :=
  match db with
  | [] => (mkUpdateResult 0 0, [])
  | a :: db' =>
      if docid_eqb (_id a) (Oid oid) then
        let a' := apply_update u a in
        (mkUpdateResult 1 (if modified a a' then 1 else 0), a' :: db')
      else
        let (r, db'') := updateOne oid u db' in (r, a :: db'')
  end.

(** What the like handler reads of a request. *)
Record request : Type := mkRequest {
  params_id : string;   (* req.params.id *)
  body_email : json     (* req.body.email *)
}.

(** PATCH /artifact/:id/like *)
Definition patch_artifact_like (req : request) (db : collection)
  : response * collection :=
  let id := params_id req in
  let email := body_email req in
  if negb (truthy email) then
    (reply 400 (Message "Email is required to toggle like status"), db)
  else
    try_catch
      (oid <- ObjectId id ;;
       match findOne oid db with
       | None => Ok (reply 404 (Message "Artifact not found"), db)
       | Some artifact =>
           let hasLiked := includes (likedBy artifact) email in
           let update := if hasLiked then IncPull (-1) email
                         else IncAddToSet 1 email in
           oid' <- ObjectId id ;;
           let (result, db') := updateOne oid' update db in
           if (modifiedCount result =? 1)%nat then
             Ok (reply 200 (Toggled "Toggle like status successful"
                              (negb hasLiked)), db')
           else Ok (reply 500 (Message "Failed to toggle like status"), db')
       end)
      (fun error => (reply 500 (Failure "Server error" error), db)).

(** The update document the like handler builds on reading [a]. *)
Definition like_update (a : artifact) (email : json) : update :=
  if includes (likedBy a) email then IncPull (-1) email
  else IncAddToSet 1 email.

(** [{ likedBy: email }] as a query: the array holds the value, or the
    value is an array and [likedBy] is that array. *)
Definition liked_by (email : json) (a : artifact) : bool :=
  holds (likedBy a) (bson email)
  || match bson email with
     | Array elems => list_eqb json_eqb (likedBy a) elems
     | Scalar _ => false
     end.

(** The answer of the liked listing: the documents, with status 200, or a
    message. *)
Inductive listing : Type :=
| Listed (docs : list artifact)
| Refused (status : nat) (message : string).

(** The handler of GET /liked-artifacts, behind [verifyToken]; [email] is
    [req.user.email]. *)
Definition liked_artifacts (email : json) (db : collection) : listing :=
  let likedArtifacts := filter (liked_by email) db in
  if (0 <? List.length likedArtifacts)%nat then Listed likedArtifacts
  else Refused 404 "No liked artifacts found".

Section Guarded.

(** [jwt.verify] with the secret of the process, and the [email] of the
    payload it decodes. *)
Variable jwt_verify : string -> option json.

(** GET /liked-artifacts, for the cookie [token] of the request. *)
Definition get_liked_artifacts (token : option string) (db : collection)
  : listing :=
  match token with
  | None => Refused 401 "Unauthorized"
  | Some token =>
      if token =? "" then Refused 401 "Unauthorized"
      else
        match jwt_verify token with
        | None => Refused 401 "Unauthorized"
        | Some email => liked_artifacts email db
        end
  end.

End Guarded.

(** Requests handled one after the other. *)
Fixpoint toggles (reqs : list request) (db : collection)
  : list response * collection :=
  match reqs with
  | [] => ([], db)
  | req :: rest =>
      let (res, db') := patch_artifact_like req db in
      let (rs, db'') := toggles rest db' in
      (res :: rs, db'')
  end.

(** The email is a primitive that the store gives back as it was sent: a
    number, a boolean, or a string without a lone surrogate. *)
Definition stable (email : json) : bool :=
  match email with
  | Scalar (JStr s) => toWellFormed s =? s
  | Scalar JUndefined => false
  | Scalar _ => true
  | Array _ => false
  end.

(** Some artifact with the ObjectId the string [id] denotes is stored. *)
Definition stored_under (id : string) (db : collection) : Prop :=
  exists (oid : N) (a : artifact),
    ObjectId id = Ok oid /\ In a db /\ _id a = Oid oid.

(** The urn, as POST /history stores it. *)
Definition urn : artifact :=
  mkArtifact (Oid urn_oid) (JStr "Urn") JUndefined JUndefined JUndefined
    JUndefined JUndefined JUndefined JUndefined (Obj (JStr "u@x.com")) [] 0.

(** The string of the one code unit D800. *)
Definition lone_surrogate : string :=
  String (ascii_of_N 237) (String (ascii_of_N 160)
    (String (ascii_of_N 128) EmptyString)).

(** A verifier that accepts the one token ["t0k3n"], issued for the email
    [["a@x.com", "b@x.com"]]. *)
Definition sample_verify (token : string) : option json :=
  if token =? "t0k3n" then
    Some (Array [Scalar (JStr "a@x.com"); Scalar (JStr "b@x.com")])
  else None.

End Wire.

(** A document whose [likedBy] holds primitives, and a like request with a
    primitive for an email, as [Wire] has them. *)
Definition on_wire (a : artifact) : Wire.artifact :=
  Wire.mkArtifact (_id a) (name a) (image a) (type a) (description a)
    (createdAt a) (discoveredAt a) (discoveredBy a) (location a)
    (addedBy a) (map Wire.Scalar (likedBy a)) (likeCount a).

Definition like_on_wire (req : request) : Wire.request :=
  Wire.mkRequest (params_id req) (Wire.Scalar (body_email (req_body req))).

(** The store keeps the primitive as it was sent. *)
Definition kept_as_sent (v : jsval) : bool := Wire.stable (Wire.Scalar v).

(** The call is no like toggle, or one with such an email. *)
Definition like_email_kept (c : call) : bool :=
  match c with
  | PatchArtifactLike req => kept_as_sent (email_of req)
  | _ => true
  end.

(** ** Search, with the tables of the store

    GET /history once more, for every search string.  The store matches
    [$regex] on the code points of the name.  With [$options: "i"] two code
    points match when they are the same letter in either case; for the
    letters of ASCII that is [A]-[Z] against [a]-[z], and for the others it
    is a table of the regular expression library of the store, [casefold]
    here, which sends the code points that match one another to one of
    them.  A pattern of ordinary characters and [.] is matched as above;
    what the library makes of any other pattern is [engine]: the test it
    compiles the pattern to, or nothing when it refuses the pattern. *)

(** The code points that a string spells in UTF-8. *)
Definition continuation (c : ascii) : N := (N_of_ascii c - 128)%N.

Fixpoint points (s : string) : list N :=
  match s with
  | EmptyString => []
  | String c1 t1 =>
      let b1 := N_of_ascii c1 in
      if (b1 <? 192)%N then b1 :: points t1
      else
        match t1 with
        | EmptyString => [b1]
        | String c2 t2 =>
            if (b1 <? 224)%N then
              (64 * (b1 - 192) + continuation c2)%N :: points t2
            else
              match t2 with
              | EmptyString => [b1]
              | String c3 t3 =>
                  if (b1 <? 240)%N then
                    (4096 * (b1 - 224) + 64 * continuation c2
                     + continuation c3)%N :: points t3
                  else
                    match t3 with
                    | EmptyString => [b1]
                    | String c4 t4 =>
                        (262144 * (b1 - 240) + 4096 * continuation c2
                         + 64 * continuation c3 + continuation c4)%N
                        :: points t4
                    end
              end
        end
  end.

(** [A]-[Z] to [a]-[z]. *)
Definition lower_point (c : N) : N :=
  if ((65 <=? c) && (c <=? 90))%N then (c + 32)%N else c.

(** One of [\^$.[]|()?*+{}]. *)
Definition is_meta_point (c : N) : bool :=
  existsb (fun m => (c =? N_of_ascii m)%N)
    (list_ascii_of_string "\^$.[]|()?*+{}").

Inductive point_atom : Type :=
| Point (c : N)
| AnyPoint.

(** The pattern, when it is made of ordinary characters and [.] only. *)
Fixpoint compile_points (pattern : list N) : option (list point_atom) :=
  match pattern with
  | [] => Some []
  | c :: rest =>
      match compile_points rest with
      | None => None
      | Some re =>
          if (c =? 46)%N then Some (AnyPoint :: re)
          else if is_meta_point c || (c =? 0)%N then None
          else Some (Point c :: re)
      end
  end.

(** The query of GET /history. *)
Inductive history_query : Type :=
| Everything                      (* {} *)
| NameMatches (pattern : string). (* { name: { $regex, $options: "i" } } *)

Section Store.

Variable casefold : N -> N.
Variable engine : string -> option (string -> bool).

(** What two code points that match without regard to case have in
    common. *)
Definition caseless (c : N) : N := casefold (lower_point c).

(** The pattern matches a prefix of the subject. *)
Fixpoint match_points (re : list point_atom) (s : list N) : bool :=
  match re with
  | [] => true
  | Point c :: re' =>
      match s with
      | d :: s' => (caseless c =? caseless d)%N && match_points re' s'
      | [] => false
      end
  | AnyPoint :: re' =>
      match s with
      | d :: s' => negb (d =? 10)%N && match_points re' s'
      | [] => false
      end
  end.

(** The pattern matches somewhere in the subject. *)
Fixpoint search_points (re : list point_atom) (s : list N) : bool :=
  match_points re s
  || match s with
     | _ :: s' => search_points re s'
     | [] => false
     end.

(** The test on names that the store compiles a pattern to. *)
Definition name_regex (pattern : string) : result (string -> bool) :=
  match compile_points (points pattern) with
  | Some re => Ok (fun n => search_points re (points n))
  | None =>
      match engine pattern with
      | Some test => Ok test
      | None => Throw MongoServerError
      end
  end.

(** [find(query).toArray()] *)
Definition find_history (q : history_query) (db : collection)
  : result (list artifact) :=
  match q with
  | Everything => Ok db
  | NameMatches pattern =>
      test <- name_regex pattern ;;
      Ok (filter (fun a => match name a with
                           | JStr n => test n
                           | _ => false
                           end) db)
  end.

(** GET /history *)
Definition search_history (req : request) (db : collection)
  : response * collection :=
  let search := query_search req in
  let query :=
    match search with
    | Some pattern => if truthy (JStr pattern) then NameMatches pattern
                      else Everything
    | None => Everything
    end in
  try_catch
    (artifacts <- find_history query db ;;
     Ok (reply 200 (Documents artifacts), db))
    (fun error => (reply 500 (Failure "Server error" error), db)).

(** [name] contains [s] as a substring, the case of letters aside. *)
Definition contains_caseless (s name : string) : Prop :=
  exists before after : list N,
    map caseless (points name) = before ++ map caseless (points s) ++ after.

End Store.

(** No character of the search string means anything to the regular
    expression library: none is NUL and none is one of
    [\^$.[]|()?*+{}]. *)
Definition literal (s : string) : bool :=
  forallb (fun c => negb (is_meta_point c) && negb (c =? 0)%N) (points s).

(** A table that folds nothing but the letters of ASCII, and a library
    that refuses every pattern it is asked about. *)
Definition ascii_only (c : N) : N := c.

Definition no_engine (pattern : string) : option (string -> bool) := None.

(* ================================================================= *)
(** * Properties *)

(** ** Equality tests decide equality *)

Lemma jsval_eqb_eq (a b : jsval) : jsval_eqb a b = true <-> a = b.
Proof.
  destruct a, b; simpl; split; intro H; try congruence; try reflexivity.
  - apply Bool.eqb_prop in H. congruence.
  - inversion H. apply Bool.eqb_reflx.
  - apply Z.eqb_eq in H. congruence.
  - inversion H. apply Z.eqb_refl.
  - apply String.eqb_eq in H. congruence.
  - inversion H. apply String.eqb_refl.
Qed.

Lemma jsval_eqb_refl (a : jsval) : jsval_eqb a a = true.
Proof. apply jsval_eqb_eq. reflexivity. Qed.

Lemma jsval_eqb_neq (a b : jsval) : jsval_eqb a b = false <-> a <> b.
Proof.
  split.
  - intros H E. apply jsval_eqb_eq in E. congruence.
  - intro H. destruct (jsval_eqb a b) eqn:E; [|reflexivity].
    apply jsval_eqb_eq in E. contradiction.
Qed.

Lemma includes_In (l : list jsval) (v : jsval) :
  includes l v = true <-> In v l.
Proof.
  unfold includes. rewrite existsb_exists. split.
  - intros [x [Hx E]]. apply jsval_eqb_eq in E. subst. exact Hx.
  - intro H. exists v. split; [exact H | apply jsval_eqb_refl].
Qed.

Lemma includes_not_In (l : list jsval) (v : jsval) :
  includes l v = false <-> ~ In v l.
Proof.
  rewrite <- includes_In. destruct (includes l v); split; congruence.
Qed.

Lemma jsobj_eqb_eq (a b : jsobj) : jsobj_eqb a b = true <-> a = b.
Proof.
  destruct a, b; simpl; rewrite ?jsval_eqb_eq; split; congruence.
Qed.

Lemma docid_eqb_eq (a b : docid) : docid_eqb a b = true <-> a = b.
Proof.
  destruct a, b; simpl; rewrite ?jsval_eqb_eq, ?N.eqb_eq; split; congruence.
Qed.

Lemma list_eqb_eq (l m : list jsval) : list_eqb jsval_eqb l m = true <-> l = m.
Proof.
  revert m. induction l as [|x l IH]; intros [|y m]; simpl;
    try (split; congruence).
  rewrite andb_true_iff, jsval_eqb_eq, IH. split.
  - intros [-> ->]. reflexivity.
  - intro H. inversion H. auto.
Qed.

Lemma artifact_eqb_eq (a b : artifact) : artifact_eqb a b = true <-> a = b.
Proof.
  unfold artifact_eqb. rewrite !andb_true_iff.
  rewrite docid_eqb_eq, !jsval_eqb_eq, jsobj_eqb_eq, list_eqb_eq, Z.eqb_eq.
  destruct a, b; simpl. split.
  - intros [[[[[[[[[[[-> ->] ->] ->] ->] ->] ->] ->] ->] ->] ->] ->].
    reflexivity.
  - intro H. inversion H. repeat split.
Qed.

Lemma artifact_eqb_likeCount (a b : artifact) :
  likeCount a <> likeCount b -> artifact_eqb a b = false.
Proof.
  intro H. destruct (artifact_eqb a b) eqn:E; [|reflexivity].
  apply artifact_eqb_eq in E. subst. contradiction.
Qed.

(** ** The driver calls on a document selected by its ObjectId *)

Lemma apply_update_id (u : update) (a : artifact) :
  _id (apply_update u a) = _id a.
Proof. destruct u; reflexivity. Qed.

Lemma findOne_None (q : query) (db : collection) :
  findOne q db = None <-> forall a, In a db -> matches q a = false.
Proof.
  induction db as [|b db IH]; simpl.
  - split; [intros _ a [] | reflexivity].
  - destruct (matches q b) eqn:M.
    + split; [discriminate|]. intro H. rewrite (H b) in M; auto; discriminate.
    + rewrite IH. split.
      * intros H a [<-|Ha]; auto.
      * intros H a Ha. auto.
Qed.

Lemma updateOne_found (oid : N) (u : update) (db : collection) (a : artifact) :
  findOne (ById oid) db = Some a ->
  exists db',
    updateOne (ById oid) u db =
      (mkUpdateResult 1 (if artifact_eqb a (apply_update u a) then 0 else 1),
       db')
    /\ findOne (ById oid) db' = Some (apply_update u a)
    /\ List.length db' = List.length db.
Proof.
  induction db as [|b db IH]; simpl; [discriminate|].
  destruct (docid_eqb (_id b) (Oid oid)) eqn:M.
  - intro H. inversion H. subst b. eexists. split; [reflexivity|].
    simpl. rewrite apply_update_id, M. auto.
  - intro H. destruct (IH H) as [db' [E [F L]]]. rewrite E.
    eexists. split; [reflexivity|]. simpl. rewrite M. auto.
Qed.

(** An update that changes nothing leaves the collection as it was. *)
Lemma updateOne_unmodified (q : query) (u : update) (db : collection) :
  modifiedCount (fst (updateOne q u db)) = 0%nat ->
  snd (updateOne q u db) = db.
Proof.
  induction db as [|b db IH]; simpl; [reflexivity|].
  destruct (matches q b).
  - simpl. destruct (artifact_eqb b (apply_update u b)) eqn:E; [|discriminate].
    apply artifact_eqb_eq in E. rewrite <- E. reflexivity.
  - destruct (updateOne q u db) as [r db']. simpl in *.
    intro H. rewrite (IH H). reflexivity.
Qed.

Lemma deleteOne_missing (q : query) (db : collection) :
  findOne q db = None -> deleteOne q db = (0%nat, db).
Proof.
  induction db as [|b db IH]; simpl; [reflexivity|].
  destruct (matches q b); [discriminate|].
  intro H. rewrite (IH H). reflexivity.
Qed.

Lemma deleteOne_count (q : query) (db : collection) :
  fst (deleteOne q db) = match findOne q db with Some _ => 1 | None => 0 end%nat.
Proof.
  induction db as [|b db IH]; simpl; [reflexivity|].
  destruct (matches q b); [reflexivity|].
  destruct (deleteOne q db). simpl in *. exact IH.
Qed.

(** ** One toggle *)

Lemma like_update_modifies (a : artifact) (email : jsval) :
  artifact_eqb a (apply_update (like_update a email) a) = false.
Proof.
  apply artifact_eqb_likeCount. unfold like_update.
  destruct (includes (likedBy a) email); simpl; lia.
Qed.

Lemma toggle_found (req : request) (db : collection) (oid : N) (a : artifact) :
  truthy (body_email (req_body req)) = true ->
  ObjectId (params_id req) = Ok oid ->
  findOne (ById oid) db = Some a ->
  exists db',
    patch_artifact_like req db =
      (reply 200 (Toggled "Toggle like status successful"
                    (negb (includes (likedBy a) (body_email (req_body req))))),
       db')
    /\ findOne (ById oid) db' =
         Some (apply_update (like_update a (body_email (req_body req))) a).
Proof.
  intros T O F. unfold patch_artifact_like. rewrite T, O. simpl. rewrite F.
  destruct (updateOne_found oid
              (like_update a (body_email (req_body req))) db a F)
    as [db' [E [F' _]]].
  unfold like_update in *.
  rewrite E. simpl.
  pose proof (like_update_modifies a (body_email (req_body req))) as M.
  unfold like_update in M. rewrite M. simpl.
  exists db'. auto.
Qed.

Lemma bson_truthy (v : jsval) : truthy v = true -> bson v = v.
Proof. destruct v; simpl; congruence. Qed.

(** ** Counting the identities of [likedBy] *)

Lemma cardinal_members (l m : list jsval) :
  (forall x, In x l <-> In x m) -> cardinal l = cardinal m.
Proof.
  intro H. unfold cardinal. apply Permutation_length.
  apply NoDup_Permutation; try apply NoDup_nodup.
  intro x. rewrite !nodup_In. apply H.
Qed.

Lemma cardinal_cons_fresh (v : jsval) (l : list jsval) :
  ~ In v l -> cardinal (v :: l) = S (cardinal l).
Proof.
  intro H. unfold cardinal. simpl.
  destruct (in_dec jsval_eq_dec v l); [contradiction | reflexivity].
Qed.

Lemma cardinal_NoDup (l : list jsval) :
  NoDup l -> cardinal l = List.length l.
Proof.
  intro H. unfold cardinal. rewrite nodup_fixed_point; auto.
Qed.

Lemma pull_In (v : jsval) (l : list jsval) (x : jsval) :
  truthy v = true -> (In x (pull v l) <-> In x l /\ x <> v).
Proof.
  intro T. unfold pull. rewrite (bson_truthy v T), filter_In, negb_true_iff.
  rewrite jsval_eqb_neq. intuition congruence.
Qed.

Lemma addToSet_In (v : jsval) (l : list jsval) (x : jsval) :
  truthy v = true -> (In x (addToSet v l) <-> x = v \/ In x l).
Proof.
  intro T. unfold addToSet. rewrite (bson_truthy v T).
  destruct (includes l v) eqn:E.
  - apply includes_In in E. intuition congruence.
  - rewrite in_app_iff. simpl. intuition congruence.
Qed.

Lemma cardinal_pull (v : jsval) (l : list jsval) :
  truthy v = true -> In v l -> cardinal l = S (cardinal (pull v l)).
Proof.
  intros T H. rewrite <- (cardinal_cons_fresh v).
  - apply cardinal_members. intro x. simpl. rewrite (pull_In v l x T).
    destruct (jsval_eq_dec x v); subst; intuition congruence.
  - rewrite (pull_In v l v T). intuition congruence.
Qed.

Lemma cardinal_addToSet (v : jsval) (l : list jsval) :
  truthy v = true -> ~ In v l -> cardinal (addToSet v l) = S (cardinal l).
Proof.
  intros T H. rewrite <- (cardinal_cons_fresh v l H).
  apply cardinal_members. intro x. rewrite (addToSet_In v l x T).
  simpl. intuition congruence.
Qed.

Lemma NoDup_pull (v : jsval) (l : list jsval) : NoDup l -> NoDup (pull v l).
Proof. apply NoDup_filter. Qed.

Lemma NoDup_addToSet (v : jsval) (l : list jsval) :
  NoDup l -> NoDup (addToSet v l).
Proof.
  intro H. unfold addToSet. destruct (includes l (bson v)) eqn:E; [exact H|].
  apply includes_not_In in E. apply NoDup_app; auto.
  - constructor; [intros [] | constructor].
  - intros a Ha [<-|[]]. contradiction.
Qed.

(** One toggle keeps [likeCount == |likedBy|], and keeps [likedBy] free of
    repetitions. *)
Lemma like_update_consistent (a : artifact) (email : jsval) :
  truthy email = true -> consistent a ->
  consistent (apply_update (like_update a email) a).
Proof.
  unfold consistent, like_update. intros T C.
  destruct (includes (likedBy a) email) eqn:E; simpl.
  - apply includes_In in E.
    rewrite C, (cardinal_pull email (likedBy a) T E). lia.
  - apply includes_not_In in E.
    rewrite C, (cardinal_addToSet email (likedBy a) T E). lia.
Qed.

Lemma like_update_NoDup (a : artifact) (email : jsval) :
  NoDup (likedBy a) -> NoDup (likedBy (apply_update (like_update a email) a)).
Proof.
  unfold like_update. intro H.
  destruct (includes (likedBy a) email); simpl.
  - apply NoDup_pull. exact H.
  - apply NoDup_addToSet. exact H.
Qed.

(** A toggle request answers 200 and applies its update, or leaves the
    collection as it was. *)
Lemma toggle_cases (req : request) (db : collection) (oid : N) (a : artifact) :
  ObjectId (params_id req) = Ok oid ->
  findOne (ById oid) db = Some a ->
  (truthy (body_email (req_body req)) = false
   /\ snd (patch_artifact_like req db) = db)
  \/ (truthy (body_email (req_body req)) = true
      /\ status (fst (patch_artifact_like req db)) = 200%nat
      /\ findOne (ById oid) (snd (patch_artifact_like req db)) =
           Some (apply_update (like_update a (body_email (req_body req))) a)).
Proof.
  intros O F. destruct (truthy (body_email (req_body req))) eqn:T.
  - right. destruct (toggle_found req db oid a T O F) as [db' [E F']].
    rewrite E. simpl. auto.
  - left. unfold patch_artifact_like. rewrite T. simpl. auto.
Qed.

(** Toggles by emails that are primitives.  Take any document with
    [likeCount == |likedBy|], where [|likedBy|] counts the identities in
    [likedBy], and any sequence of like-toggle requests on it, handled one
    after the other.  The document is still in
    the collection afterwards and still has [likeCount == |likedBy|].  If
    its [likedBy] held no identity twice at the start, as in every document
    POST /history creates, it holds none twice afterwards, and [likeCount]
    is the length of [likedBy]. *)
Theorem toggles_keep_likeCount :
  forall (reqs : list request) (db : collection) (oid : N) (a : artifact),
    findOne (ById oid) db = Some a ->
    consistent a ->
    Forall (fun req => ObjectId (params_id req) = Ok oid) reqs ->
    exists a',
      findOne (ById oid) (snd (toggles reqs db)) = Some a'
      /\ consistent a'
      /\ (NoDup (likedBy a) ->
          NoDup (likedBy a')
          /\ likeCount a' = Z.of_nat (List.length (likedBy a'))).
Proof.
  induction reqs as [|req reqs IH]; intros db oid a F C Hreqs.
  - exists a. simpl. repeat split; auto.
    rewrite <- (cardinal_NoDup (likedBy a)); auto.
  - inversion Hreqs as [|? ? O Hrest]; subst. simpl.
    destruct (patch_artifact_like req db) as [res db1] eqn:E.
    destruct (toggle_cases req db oid a O F) as [[T U] | [T [_ F1]]];
      rewrite E in *; simpl in *.
    + subst db1. destruct (IH db oid a F C Hrest) as [a' H].
      destruct (toggles reqs db) as [rs db2]. simpl in *. exists a'. exact H.
    + destruct (IH db1 oid _ F1
                  (like_update_consistent a _ T C) Hrest) as [a' [F2 [C2 N2]]].
      destruct (toggles reqs db1) as [rs db2]. simpl in *.
      exists a'. repeat split; auto; apply N2; apply like_update_NoDup; auto.
Qed.

(** Three toggles on the new urn, by two users. *)
Lemma toggles_keep_likeCount_witness :
  exists a',
    findOne (ById urn_oid)
      (snd (toggles [like_request urn_id (JStr "u@x.com");
                     like_request urn_id (JStr "v@x.com");
                     like_request urn_id (JStr "u@x.com")] urn_db)) = Some a'
    /\ consistent a'
    /\ (NoDup (likedBy urn) ->
        NoDup (likedBy a')
        /\ likeCount a' = Z.of_nat (List.length (likedBy a'))).
Proof.
  apply (toggles_keep_likeCount
           [like_request urn_id (JStr "u@x.com");
            like_request urn_id (JStr "v@x.com");
            like_request urn_id (JStr "u@x.com")] urn_db urn_oid urn);
    [reflexivity | reflexivity | repeat constructor].
Defined.

Example three_toggles_on_urn :
  map (fun a => (likedBy a, likeCount a))
    (snd (toggles [like_request urn_id (JStr "u@x.com");
                   like_request urn_id (JStr "v@x.com");
                   like_request urn_id (JStr "u@x.com")] urn_db)) =
  [([JStr "v@x.com"], 1%Z)].
Proof. reflexivity. Qed.

(** ** Two toggles *)

Lemma like_update_flips (a : artifact) (email : jsval) :
  truthy email = true ->
  includes (likedBy (apply_update (like_update a email) a)) email =
  negb (includes (likedBy a) email).
Proof.
  intro T. unfold like_update.
  destruct (includes (likedBy a) email) eqn:E; simpl.
  - apply includes_not_In. rewrite (pull_In email _ email T). tauto.
  - apply includes_In. rewrite (addToSet_In email _ email T). auto.
Qed.

Lemma like_update_twice (a : artifact) (email : jsval) :
  truthy email = true ->
  let a1 := apply_update (like_update a email) a in
  let a2 := apply_update (like_update a1 email) a1 in
  likeCount a2 = likeCount a
  /\ (forall x, In x (likedBy a2) <-> In x (likedBy a)).
Proof.
  intro T. unfold like_update.
  destruct (includes (likedBy a) email) eqn:E;
    cbn [apply_update likedBy likeCount].
  - apply includes_In in E.
    assert (G : includes (pull email (likedBy a)) email = false).
    { apply includes_not_In. rewrite (pull_In email _ email T). tauto. }
    rewrite G. cbn [apply_update likedBy likeCount].
    split; [lia|]. intro x.
    rewrite (addToSet_In email _ x T), (pull_In email _ x T).
    destruct (jsval_eq_dec x email); subst; intuition congruence.
  - apply includes_not_In in E.
    assert (G : includes (addToSet email (likedBy a)) email = true).
    { apply includes_In. rewrite (addToSet_In email _ email T). auto. }
    rewrite G. cbn [apply_update likedBy likeCount].
    split; [lia|]. intro x.
    rewrite (pull_In email _ x T), (addToSet_In email _ x T).
    destruct (jsval_eq_dec x email); subst; intuition congruence.
Qed.

(** Two toggle requests for the same artifact by the same email, a
    primitive, handled one right after the other and both answered 200: the
    second
    answer carries the negation of the first one's [liked]; afterwards
    [likeCount] is what it was before the first toggle, and so is the
    membership in [likedBy] of the email (and of every other identity). *)
Theorem toggle_twice_restores :
  forall (db : collection) (oid : N) (a : artifact) (email : jsval)
         (req1 req2 : request),
    findOne (ById oid) db = Some a ->
    ObjectId (params_id req1) = Ok oid ->
    ObjectId (params_id req2) = Ok oid ->
    body_email (req_body req1) = email ->
    body_email (req_body req2) = email ->
    let r1 := patch_artifact_like req1 db in
    let r2 := patch_artifact_like req2 (snd r1) in
    status (fst r1) = 200%nat ->
    status (fst r2) = 200%nat ->
    exists (liked : bool) (a2 : artifact),
      sent (fst r1) = Toggled "Toggle like status successful" liked
      /\ sent (fst r2) = Toggled "Toggle like status successful" (negb liked)
      /\ liked = negb (includes (likedBy a) email)
      /\ findOne (ById oid) (snd r2) = Some a2
      /\ likeCount a2 = likeCount a
      /\ (In email (likedBy a2) <-> In email (likedBy a))
      /\ (forall x, In x (likedBy a2) <-> In x (likedBy a)).
Proof.
  intros db oid a email req1 req2 F O1 O2 E1 E2 r1 r2 S1 S2.
  assert (T : truthy email = true).
  { destruct (truthy email) eqn:T; [reflexivity|]. exfalso.
    subst r1. unfold patch_artifact_like in S1.
    rewrite E1, T in S1. simpl in S1. discriminate. }
  destruct (toggle_found req1 db oid a) as [db1 [R1 F1]];
    [rewrite E1; exact T | exact O1 | exact F |].
  rewrite E1 in R1, F1. subst r2 r1. rewrite R1 in *. simpl in *.
  destruct (toggle_found req2 db1 oid
              (apply_update (like_update a email) a)) as [db2 [R2 F2]];
    [rewrite E2; exact T | exact O2 | exact F1 |].
  rewrite E2 in R2, F2. rewrite R2. simpl.
  rewrite (like_update_flips a email T) in *.
  destruct (like_update_twice a email T) as [L M].
  exists (negb (includes (likedBy a) email)).
  exists (apply_update
            (like_update (apply_update (like_update a email) a) email)
            (apply_update (like_update a email) a)).
  repeat split; try exact F2; try exact L; try apply M; auto.
Qed.

(** The end-to-end example: the urn is liked, then unliked, by its
    creator. *)
Lemma toggle_twice_restores_witness :
  exists (liked : bool) (a2 : artifact),
    sent (fst (patch_artifact_like (like_request urn_id (JStr "u@x.com"))
                 urn_db)) =
      Toggled "Toggle like status successful" liked
    /\ sent (fst (patch_artifact_like (like_request urn_id (JStr "u@x.com"))
                    (snd (patch_artifact_like
                            (like_request urn_id (JStr "u@x.com")) urn_db)))) =
         Toggled "Toggle like status successful" (negb liked)
    /\ liked = negb (includes (likedBy urn) (JStr "u@x.com"))
    /\ findOne (ById urn_oid)
         (snd (patch_artifact_like (like_request urn_id (JStr "u@x.com"))
                 (snd (patch_artifact_like
                         (like_request urn_id (JStr "u@x.com")) urn_db)))) =
         Some a2
    /\ likeCount a2 = likeCount urn
    /\ (In (JStr "u@x.com") (likedBy a2) <-> In (JStr "u@x.com") (likedBy urn))
    /\ (forall x, In x (likedBy a2) <-> In x (likedBy urn)).
Proof.
  apply (toggle_twice_restores urn_db urn_oid urn (JStr "u@x.com")
           (like_request urn_id (JStr "u@x.com"))
           (like_request urn_id (JStr "u@x.com"))); reflexivity.
Defined.

Example like_then_unlike_urn :
  let req := like_request urn_id (JStr "u@x.com") in
  let r1 := patch_artifact_like req urn_db in
  let r2 := patch_artifact_like req (snd r1) in
  fst r1 = reply 200 (Toggled "Toggle like status successful" true)
  /\ map likeCount (snd r1) = [1%Z]
  /\ fst r2 = reply 200 (Toggled "Toggle like status successful" false)
  /\ map likeCount (snd r2) = [0%Z].
Proof. repeat split. Qed.

(** ** Lookups by ObjectId *)

Example urn_db_is_urn : urn_db = [urn].
Proof. reflexivity. Qed.

Lemma findOne_ById_None (oid : N) (db : collection) :
  (forall a, In a db -> _id a <> Oid oid) -> findOne (ById oid) db = None.
Proof.
  intro H. apply findOne_None. intros a Ha. simpl.
  destruct (docid_eqb (_id a) (Oid oid)) eqn:E; [|reflexivity].
  apply docid_eqb_eq in E. destruct (H a Ha E).
Qed.

(** ** Creation *)

Lemma existsb_id_false (id : docid) (db : collection) :
  (forall a, In a db -> _id a <> id) ->
  existsb (fun a => docid_eqb (_id a) id) db = false.
Proof.
  intro H. destruct (existsb _ db) eqn:E; [|reflexivity].
  apply existsb_exists in E. destruct E as [a [Ha E]].
  apply docid_eqb_eq in E. destruct (H a Ha E).
Qed.

(** POST /history stores nothing, or one document without likes. *)
Lemma post_history_appends (gen : N) (req : request) (db : collection) :
  snd (post_history gen req db) = db
  \/ exists a, snd (post_history gen req db) = db ++ [a]
               /\ likedBy a = [] /\ likeCount a = 0%Z
               /\ addedBy a = body_addedBy (req_body req).
Proof.
  unfold post_history.
  destruct (truthy (opt_email (body_addedBy (req_body req))));
    cbn [negb]; [|left; reflexivity].
  unfold insertOne. cbv zeta.
  destruct (existsb _ db); cbn [bind try_catch snd]; [left; reflexivity|].
  match goal with
  | |- context [if ?c then _ else _] => destruct c
  end; cbn [snd]; right; eexists; repeat split.
Qed.




(** Whatever POST /history stores satisfies [likeCount == |likedBy|]. *)
Lemma post_history_consistent (gen : N) (req : request) (db : collection) :
  Forall consistent db ->
  Forall consistent (snd (post_history gen req db)).
Proof.
  intro H.
  destruct (post_history_appends gen req db) as [E | [a [E [L [C _]]]]];
    rewrite E; [exact H|].
  apply Forall_app. split; [exact H|]. constructor; [|constructor].
  unfold consistent. rewrite L, C. reflexivity.
Qed.

(** ** Update *)




(** ** The guarded listings *)

Lemma verifyToken_accepts (jwt_verify : string -> option claims)
    (req : request) (token : string) (user : claims)
    (next : claims -> request -> collection -> response * collection)
    (db : collection) :
  cookies_token req = Some token ->
  token <> "" ->
  jwt_verify token = Some user ->
  verifyToken jwt_verify req next db = next user req db.
Proof.
  intros C N V. unfold verifyToken. rewrite C.
  destruct (token =? "") eqn:E.
  - apply String.eqb_eq in E. contradiction.
  - rewrite V. reflexivity.
Qed.

Lemma verifyToken_rejects (jwt_verify : string -> option claims)
    (req : request)
    (next : claims -> request -> collection -> response * collection)
    (db : collection) :
  (forall token, cookies_token req = Some token ->
                 token = "" \/ jwt_verify token = None) ->
  verifyToken jwt_verify req next db = (reply 401 (Message "Unauthorized"), db).
Proof.
  intro H. unfold verifyToken.
  destruct (cookies_token req) as [token|]; [|reflexivity].
  destruct (token =? "") eqn:E; [reflexivity|].
  destruct (H token eq_refl) as [-> | ->]; [discriminate | reflexivity].
Qed.

(** The liked listing for a token whose email is a primitive: an
    authenticated request to GET /liked-artifacts selects the stored
    artifacts whose [likedBy] holds the email of the verified token, in the
    order of the collection; it is answered 404 when there is none and 200
    with the list otherwise, and changes nothing. *)
Theorem liked_artifacts_listing :
  forall (jwt_verify : string -> option claims) (req : request)
         (db : collection) (token : string) (user : claims) (email : jsval),
    cookies_token req = Some token ->
    token <> "" ->
    jwt_verify token = Some user ->
    user_email user = email ->
    email <> JUndefined ->
    exists liked : list artifact,
      liked = filter (fun a => includes (likedBy a) email) db
      /\ (forall a, In a liked <-> In a db /\ In email (likedBy a))
      /\ (liked = [] ->
          get_liked_artifacts jwt_verify req db =
            (reply 404 (Message "No liked artifacts found"), db))
      /\ (liked <> [] ->
          get_liked_artifacts jwt_verify req db =
            (reply 200 (Documents liked), db)).
Proof.
  intros jwt_verify req db token user email C N V E U.
  exists (filter (fun a => includes (likedBy a) email) db).
  split; [reflexivity|]. split.
  - intro a. rewrite filter_In, includes_In. reflexivity.
  - unfold get_liked_artifacts.
    rewrite (verifyToken_accepts jwt_verify req token user _ db C N V).
    unfold liked_artifacts, find. rewrite E.
    assert (B : bson email = email) by (destruct email; simpl; congruence).
    replace (filter (matches (LikedBy email)) db)
      with (filter (fun a => includes (likedBy a) email) db)
      by (apply filter_ext; intro a; simpl; rewrite B; reflexivity).
    destruct (filter _ db) as [|a l]; simpl; split; congruence.
Qed.

(** Nobody likes the new urn: its creator's listing is a 404. *)
Lemma liked_artifacts_listing_witness :
  get_liked_artifacts sample_verify
    (mkRequest (Some "t0k3n") None None "" no_body) urn_db =
  (reply 404 (Message "No liked artifacts found"), urn_db).
Proof.
  destruct (liked_artifacts_listing sample_verify
              (mkRequest (Some "t0k3n") None None "" no_body) urn_db
              "t0k3n" (mkClaims (JStr "b@x.com")) (JStr "b@x.com")
              eq_refl ltac:(discriminate) eq_refl eq_refl ltac:(discriminate))
    as [liked [L [_ [H _]]]].
  apply H. rewrite L. reflexivity.
Defined.

(** GET /my-artifacts: what the code does where the specification and the
    code agree. *)
Lemma my_artifacts_agreed_cases (jwt_verify : string -> option claims)
    (req : request) (db : collection) :
  ((forall token, cookies_token req = Some token ->
                  token = "" \/ jwt_verify token = None) ->
   get_my_artifacts jwt_verify req db =
     (reply 401 (Message "Unauthorized"), db))
  /\ (forall token user,
        cookies_token req = Some token -> token <> "" ->
        jwt_verify token = Some user ->
        (forall s, query_email req = Some s -> user_email user <> JStr s ->
                   get_my_artifacts jwt_verify req db =
                     (reply 403 (Message "Forbidden"), db))
        /\ (forall s, query_email req = Some s -> user_email user = JStr s ->
                      s <> "" ->
                      get_my_artifacts jwt_verify req db =
                        (reply 200
                           (Documents
                              (filter (fun a => jsval_eqb
                                                  (opt_email (addedBy a))
                                                  (JStr s)) db)), db))).
Proof.
  split.
  - apply verifyToken_rejects.
  - intros token user C N V. unfold get_my_artifacts.
    rewrite (verifyToken_accepts jwt_verify req token user _ db C N V).
    unfold my_artifacts. split.
    + intros s Q D. rewrite Q. simpl.
      apply jsval_eqb_neq in D. rewrite D. reflexivity.
    + intros s Q D S. rewrite Q, D. simpl. rewrite String.eqb_refl.
      destruct (s =? "") eqn:E; [apply String.eqb_eq in E; contradiction|].
      reflexivity.
Qed.

(** C6, where the code departs from it.  A request to GET /my-artifacts with
    a valid credential and no [email] query parameter is answered 403 as
    soon as the credential carries an email; the 400 branch comes after the
    identity check and is not reached. *)
Theorem my_artifacts_missing_email_is_403 :
  forall (jwt_verify : string -> option claims) (req : request)
         (db : collection) (token : string) (user : claims),
    cookies_token req = Some token ->
    token <> "" ->
    jwt_verify token = Some user ->
    user_email user <> JUndefined ->
    query_email req = None ->
    get_my_artifacts jwt_verify req db = (reply 403 (Message "Forbidden"), db).
Proof.
  intros jwt_verify req db token user C N V U Q. unfold get_my_artifacts.
  rewrite (verifyToken_accepts jwt_verify req token user _ db C N V).
  unfold my_artifacts. rewrite Q. simpl.
  destruct (user_email user); try reflexivity. contradiction.
Qed.

(** The credential of [b@x.com], no [email] parameter: 403. *)
Lemma my_artifacts_missing_email_is_403_witness :
  get_my_artifacts sample_verify
    (mkRequest (Some "t0k3n") None None "" no_body) urn_db =
  (reply 403 (Message "Forbidden"), urn_db).
Proof.
  apply (my_artifacts_missing_email_is_403 sample_verify
           (mkRequest (Some "t0k3n") None None "" no_body) urn_db
           "t0k3n" (mkClaims (JStr "b@x.com")));
    try reflexivity; discriminate.
Defined.

(** ** Identifiers that are not well formed *)

Lemma findOne_ById_None_inv (oid : N) (db : collection) :
  findOne (ById oid) db = None -> forall a, In a db -> _id a <> Oid oid.
Proof.
  intros H a Ha E. rewrite findOne_None in H. specialize (H a Ha).
  simpl in H. rewrite E in H. simpl in H. rewrite N.eqb_refl in H.
  discriminate.
Qed.

Lemma updateOne_modifiedCount (q : query) (u : update) (db : collection) :
  modifiedCount (fst (updateOne q u db)) = 0%nat
  \/ modifiedCount (fst (updateOne q u db)) = 1%nat.
Proof.
  induction db as [|a db IH]; simpl; [auto|].
  destruct (matches q a); simpl.
  - destruct (artifact_eqb a (apply_update u a)); auto.
  - destruct (updateOne q u db). simpl in *. exact IH.
Qed.

(** C10, as it is worded, fails twice.  For the like toggle: with an
    identifier that is not well formed and no email in the body, the answer
    is 400, not 500.  For update: the same update sent a second time is
    answered 404 although the identifier is well formed and the document is
    stored under it. *)
Lemma toggle_400_and_update_404_exceptions :
  (ObjectId "xyz" = Throw BSONError
   /\ patch_artifact_like (like_request "xyz" JUndefined) urn_db =
        (reply 400 (Message "Email is required to toggle like status"),
         urn_db))
  /\ (let req := mkRequest None None None urn_id
                   (new_artifact (JStr "Urn") JUndefined) in
      let db := snd (patch_artifact req urn_db) in
      stored_under urn_id db
      /\ fst (patch_artifact req urn_db) =
           reply 200 (Message "Artifact updated successfully")
      /\ patch_artifact req db =
           (reply 404 (Message "Artifact not found or no changes made"), db)).
Proof.
  split; [split; reflexivity|]. split; [|split; reflexivity].
  exists urn_oid. eexists. split; [reflexivity|].
  split; [left; reflexivity | reflexivity].
Qed.

(** C10, amended.  When [new ObjectId(id)] throws, update, delete and get
    by id answer 500 with the error and leave the collection as it was, and
    so does the like toggle when the body carries an email (without one it
    answers 400 before it looks at the identifier).  Hence a 404 of one of
    the four endpoints means that the identifier was well formed and that
    nothing was changed; for the like toggle, delete and get it also means
    that no document is stored under the identifier (update answers 404 as
    well when the document is there and the update changes nothing). *)
Theorem malformed_id_is_500 :
  forall (req : request) (db : collection),
    let id := params_id req in
    let email := body_email (req_body req) in
    (forall e, ObjectId id = Throw e ->
       patch_artifact req db = (reply 500 (Failure "Server error" e), db)
       /\ delete_artifact req db = (reply 500 (Failure "Server error" e), db)
       /\ get_artifact req db = (reply 500 (Failure "Server error" e), db)
       /\ (truthy email = true ->
           patch_artifact_like req db =
             (reply 500 (Failure "Server error" e), db))
       /\ (truthy email = false ->
           patch_artifact_like req db =
             (reply 400 (Message "Email is required to toggle like status"),
              db)))
    /\ (status (fst (patch_artifact_like req db)) = 404%nat ->
        exists oid, ObjectId id = Ok oid
                    /\ (forall a, In a db -> _id a <> Oid oid)
                    /\ snd (patch_artifact_like req db) = db)
    /\ (status (fst (delete_artifact req db)) = 404%nat ->
        exists oid, ObjectId id = Ok oid
                    /\ (forall a, In a db -> _id a <> Oid oid)
                    /\ snd (delete_artifact req db) = db)
    /\ (status (fst (get_artifact req db)) = 404%nat ->
        exists oid, ObjectId id = Ok oid
                    /\ (forall a, In a db -> _id a <> Oid oid)
                    /\ snd (get_artifact req db) = db)
    /\ (status (fst (patch_artifact req db)) = 404%nat ->
        exists oid, ObjectId id = Ok oid
                    /\ snd (patch_artifact req db) = db).
Proof.
  intros req db id email. subst id email.
  split; [|split; [|split; [|split]]].
  - intros e O.
    unfold patch_artifact, delete_artifact, get_artifact, patch_artifact_like.
    rewrite O. simpl. repeat split; intros ->; reflexivity.
  - destruct (truthy (body_email (req_body req))) eqn:T.
    + destruct (ObjectId (params_id req)) as [oid|e] eqn:O.
      * destruct (findOne (ById oid) db) as [a|] eqn:F.
        -- destruct (toggle_found req db oid a T O F) as [db' [R _]].
           rewrite R. simpl. discriminate.
        -- intros _. exists oid. unfold patch_artifact_like.
           rewrite T, O. simpl. rewrite F. simpl.
           repeat split. apply findOne_ById_None_inv. exact F.
      * unfold patch_artifact_like. rewrite T, O. simpl. discriminate.
    + unfold patch_artifact_like. rewrite T. simpl. discriminate.
  - unfold delete_artifact.
    destruct (ObjectId (params_id req)) as [oid|e]; simpl; [|discriminate].
    pose proof (deleteOne_count (ById oid) db) as Cn.
    destruct (findOne (ById oid) db) as [a|] eqn:F.
    + destruct (deleteOne (ById oid) db) as [n db']. simpl in Cn. subst n.
      simpl. discriminate.
    + rewrite (deleteOne_missing (ById oid) db F). simpl. intros _.
      exists oid. repeat split. apply findOne_ById_None_inv. exact F.
  - unfold get_artifact.
    destruct (ObjectId (params_id req)) as [oid|e]; simpl; [|discriminate].
    destruct (findOne (ById oid) db) as [a|] eqn:F; simpl; [discriminate|].
    intros _. exists oid. repeat split. apply findOne_ById_None_inv. exact F.
  - unfold patch_artifact.
    destruct (ObjectId (params_id req)) as [oid|e]; simpl; [|discriminate].
    match goal with
    | |- context [updateOne ?q ?u db] =>
        pose proof (updateOne_modifiedCount q u db) as M;
        pose proof (updateOne_unmodified q u db) as U;
        destruct (updateOne q u db) as [r db']
    end.
    simpl in *. destruct M as [M | M]; rewrite M in *; simpl.
    + intros _. exists oid. split; [reflexivity | apply U; reflexivity].
    + discriminate.
Qed.

(** Update, delete and get by id on the path parameter ["xyz"]. *)
Lemma malformed_id_is_500_witness :
  patch_artifact (like_request "xyz" JUndefined) urn_db =
    (reply 500 (Failure "Server error" BSONError), urn_db)
  /\ delete_artifact (like_request "xyz" JUndefined) urn_db =
       (reply 500 (Failure "Server error" BSONError), urn_db)
  /\ get_artifact (like_request "xyz" JUndefined) urn_db =
       (reply 500 (Failure "Server error" BSONError), urn_db).
Proof.
  destruct (malformed_id_is_500 (like_request "xyz" JUndefined) urn_db)
    as [H _].
  destruct (H BSONError eq_refl) as [H1 [H2 [H3 _]]].
  repeat split; assumption.
Defined.

(** ** Toggles in flight *)

(** A toggle that runs alone, its two steps back to back, is the handler. *)
Lemma toggle_steps_are_handler (req : request) (db : collection) :
  run [0; 0]%nat [Received req] db =
  ([Responded (fst (patch_artifact_like req db))],
   snd (patch_artifact_like req db)).
Proof.
  unfold patch_artifact_like. simpl.
  destruct (truthy (body_email (req_body req))); simpl; [|reflexivity].
  destruct (ObjectId (params_id req)) as [oid|e] eqn:O; simpl;
    [|reflexivity].
  destruct (findOne (ById oid) db) as [a|]; simpl; [|reflexivity].
  rewrite O. simpl.
  destruct (updateOne (ById oid) _ db) as [r db'].
  destruct (modifiedCount r =? 1)%nat; reflexivity.
Qed.

(** C2, where the code departs from it.  Two toggles by the same email on the
    new urn, both served by [findOne] before either reaches [updateOne]:
    both are answered [liked: true], [likeCount] ends at 2 and [likedBy]
    holds the email once. *)
Theorem same_email_race_counts_twice :
  run [0; 1; 0; 1]%nat
    [Received (like_request urn_id (JStr "u@x.com"));
     Received (like_request urn_id (JStr "u@x.com"))] urn_db =
  ([Responded (reply 200 (Toggled "Toggle like status successful" true));
    Responded (reply 200 (Toggled "Toggle like status successful" true))],
   [mkArtifact (Oid urn_oid) (JStr "Urn") JUndefined JUndefined JUndefined
      JUndefined JUndefined JUndefined JUndefined (Obj (JStr "u@x.com"))
      [JStr "u@x.com"] 2]).
Proof. reflexivity. Qed.

Lemma step_at_spec (i : nat) (ts : list toggle) (db : collection) :
  step_at i ts db = (ts, db)
  \/ exists ts1 t ts2,
       ts = ts1 ++ t :: ts2
       /\ step_at i ts db =
            (ts1 ++ fst (toggle_step t db) :: ts2, snd (toggle_step t db)).
Proof.
  revert i. induction ts as [|t ts IH]; intros [|i]; simpl; auto.
  - right. exists [], t, ts. split; [reflexivity|].
    destruct (toggle_step t db). reflexivity.
  - destruct (IH i) as [E | [ts1 [u [ts2 [E1 E2]]]]].
    + left. rewrite E. reflexivity.
    + right. exists (t :: ts1), u, ts2. rewrite E2. subst ts.
      split; reflexivity.
Qed.

Lemma answered_app (rs1 rs2 : list request) (ts1 ts2 : list toggle) :
  Forall2 on_course rs1 ts1 ->
  answered (rs1 ++ rs2) (ts1 ++ ts2) = answered rs1 ts1 ++ answered rs2 ts2.
Proof.
  induction 1 as [|r t rs1 ts1 _ _ IH]; simpl; [reflexivity|].
  rewrite IH. destruct (responded t); reflexivity.
Qed.

Lemma answered_incl (rs : list request) (ts : list toggle) (x : jsval) :
  In x (answered rs ts) -> In x (map email_of rs).
Proof.
  revert ts. induction rs as [|r rs IH]; intros [|t ts]; simpl; try tauto.
  destruct (responded t); simpl; intros H.
  - destruct H as [H | H]; eauto.
  - eauto.
Qed.

Lemma answered_all (rs : list request) (ts : list toggle) :
  Forall2 on_course rs ts -> forallb responded ts = true ->
  answered rs ts = map email_of rs.
Proof.
  induction 1 as [|r t rs ts _ _ IH]; simpl; [reflexivity|].
  destruct (responded t); simpl; [|discriminate].
  intro H. rewrite (IH H). reflexivity.
Qed.

(** A step of any toggle keeps [in_step]. *)
Lemma step_at_in_step (oid : N) (reqs : list request) (i : nat)
    (ts : list toggle) (db : collection) :
  NoDup (map email_of reqs) ->
  Forall (fun req => ObjectId (params_id req) = Ok oid
                     /\ truthy (email_of req) = true) reqs ->
  in_step oid reqs ts db ->
  in_step oid reqs (fst (step_at i ts db)) (snd (step_at i ts db)).
Proof.
  intros ND Hreqs [F2 [a [Fa [P C]]]].
  destruct (step_at_spec i ts db) as [E | [ts1 [t [ts2 [E1 E2]]]]];
    [rewrite E; simpl; split; eauto|].
  rewrite E2. simpl. subst ts. clear E2.
  destruct (Forall2_app_inv_r _ _ F2) as [rs1 [rs' [G1 [G2 ->]]]].
  inversion G2 as [|r t' rs2 ts2' Ht G3]; subst.
  rewrite map_app in ND. simpl in ND.
  pose proof (NoDup_remove_2 _ _ _ ND) as Fresh.
  apply Forall_app in Hreqs. destruct Hreqs as [_ Hr].
  inversion Hr as [|? ? [O T] _]; subst.
  assert (Stay : forall u, responded t = false -> on_course r u ->
                           responded u = false ->
                           Forall2 on_course (rs1 ++ r :: rs2) (ts1 ++ u :: ts2)
                           /\ answered (rs1 ++ r :: rs2) (ts1 ++ u :: ts2) =
                              answered (rs1 ++ r :: rs2) (ts1 ++ t :: ts2)).
  { intros u R1 Hu R2. split.
    - apply Forall2_app; [exact G1 | constructor; assumption].
    - rewrite !(answered_app _ _ _ _ G1). simpl. rewrite R1, R2. reflexivity. }
  assert (Out : responded t = false -> ~ In (email_of r) (likedBy a)).
  { intros R1 Hin. apply Fresh.
    apply (Permutation_in _ P) in Hin.
    rewrite (answered_app _ _ _ _ G1) in Hin. simpl in Hin. rewrite R1 in Hin.
    apply in_app_or in Hin. apply in_or_app.
    destruct Hin as [Hin | Hin]; [left | right];
      apply (answered_incl _ _ _ Hin). }
  unfold email_of in *.
  destruct Ht; simpl.
  - (* served by findOne *)
    rewrite T, O. simpl. rewrite Fa. simpl.
    apply includes_not_In in Out; [|reflexivity]. rewrite Out.
    destruct (Stay (Decided r false) eq_refl (on_course_decided r) eq_refl)
      as [S1 S2].
    split; [exact S1|]. exists a. rewrite S2. auto.
  - (* served by updateOne *)
    rewrite O. simpl.
    destruct (updateOne_found oid
                (IncAddToSet 1 (body_email (req_body r))) db a Fa)
      as [db' [E [F' _]]].
    rewrite E. simpl.
    rewrite artifact_eqb_likeCount by (simpl; lia). simpl.
    split.
    + apply Forall2_app; [exact G1 | constructor; [constructor | exact G3]].
    + eexists. split; [exact F'|].
      specialize (Out eq_refl).
      assert (A : addToSet (body_email (req_body r)) (likedBy a) =
                  likedBy a ++ [body_email (req_body r)]).
      { unfold addToSet. rewrite (bson_truthy _ T).
        apply includes_not_In in Out. rewrite Out. reflexivity. }
      simpl. rewrite A. split.
      * rewrite !(answered_app _ _ _ _ G1) in *. simpl in *.
        apply Permutation_sym.
        apply Permutation_trans
          with (body_email (req_body r) :: answered rs1 ts1 ++ answered rs2 ts2).
        -- apply Permutation_sym. apply Permutation_middle.
        -- apply Permutation_trans with (body_email (req_body r) :: likedBy a).
           ++ constructor. apply Permutation_sym. exact P.
           ++ apply Permutation_cons_append.
      * rewrite length_app. simpl. lia.
  - (* answered already *)
    split; [exact F2|]. exists a. auto.
Qed.

Lemma run_in_step (oid : N) (reqs : list request) (schedule : list nat) :
  NoDup (map email_of reqs) ->
  Forall (fun req => ObjectId (params_id req) = Ok oid
                     /\ truthy (email_of req) = true) reqs ->
  forall (ts : list toggle) (db : collection),
    in_step oid reqs ts db ->
    in_step oid reqs (fst (run schedule ts db)) (snd (run schedule ts db)).
Proof.
  intros ND Hreqs. induction schedule as [|i rest IH]; intros ts db H; simpl.
  - exact H.
  - pose proof (step_at_in_step oid reqs i ts db ND Hreqs H) as H1.
    destruct (step_at i ts db) as [ts' db']. apply IH. exact H1.
Qed.

(** X10.  No lost update.  Toggle requests by distinct emails, primitives
    that the store keeps as they were sent, on an artifact with
    [likeCount = 0] and [likedBy = []], their steps interleaved in any
    order: once all are answered, all were answered [liked: true],
    [likeCount] is their number and [likedBy] holds their emails, each
    once. *)
Theorem distinct_emails_no_lost_update :
  forall (oid : N) (reqs : list request) (schedule : list nat)
         (db : collection) (a : artifact),
    findOne (ById oid) db = Some a ->
    likedBy a = [] ->
    likeCount a = 0%Z ->
    NoDup (map email_of reqs) ->
    Forall (fun req => ObjectId (params_id req) = Ok oid
                       /\ truthy (email_of req) = true) reqs ->
    Forall (fun req => kept_as_sent (email_of req) = true) reqs ->
    let final := run schedule (map Received reqs) db in
    forallb responded (fst final) = true ->
    exists a',
      findOne (ById oid) (snd final) = Some a'
      /\ likeCount a' = Z.of_nat (List.length reqs)
      /\ List.length (likedBy a') = List.length reqs
      /\ Permutation (likedBy a') (map email_of reqs)
      /\ Forall (fun t => t = Responded
                                (reply 200
                                   (Toggled "Toggle like status successful"
                                      true))) (fst final).
Proof.
  intros oid reqs schedule db a Fa L C ND Hreqs _ final Done.
  assert (I0 : in_step oid reqs (map Received reqs) db).
  { split.
    - clear. induction reqs; simpl; constructor; [constructor | assumption].
    - exists a. rewrite L, C. repeat split; auto.
      replace (answered reqs (map Received reqs)) with (@nil jsval);
        [constructor|].
      clear. induction reqs; simpl; auto. }
  pose proof (run_in_step oid reqs schedule ND Hreqs _ _ I0) as I.
  fold final in I. destruct I as [F2 [a' [Fa' [P C']]]].
  rewrite (answered_all _ _ F2 Done) in P.
  exists a'. split; [exact Fa'|].
  pose proof (Permutation_length P) as Len. rewrite length_map in Len.
  repeat split; try congruence; try exact P.
  clear - F2 Done. induction F2 as [|r t rs ts Ht _ IH]; [constructor|].
  simpl in Done. apply andb_true_iff in Done. destruct Done as [D1 D2].
  constructor; [|apply IH; exact D2].
  destruct Ht; simpl in D1; try discriminate. reflexivity.
Qed.

Example two_users_interleaved :
  map (fun a => (likedBy a, likeCount a))
    (snd (run [0; 1; 1; 0]%nat
            [Received (like_request urn_id (JStr "u@x.com"));
             Received (like_request urn_id (JStr "v@x.com"))] urn_db)) =
  [([JStr "v@x.com"; JStr "u@x.com"], 2%Z)].
Proof. reflexivity. Qed.

(* ================================================================= *)
(** * Further properties of the routes *)

(** ** The document a driver call selects *)

Lemma findOne_split (q : query) (db : collection) :
  (findOne q db = None /\ forall x, In x db -> matches q x = false)
  \/ exists l1 a l2,
       db = l1 ++ a :: l2
       /\ findOne q db = Some a
       /\ matches q a = true
       /\ forall x, In x l1 -> matches q x = false.
Proof.
  induction db as [|b db IH]; simpl.
  - left. split; [reflexivity | intros x []].
  - destruct (matches q b) eqn:M.
    + right. exists [], b, db. repeat split; auto. intros x [].
    + destruct IH as [[F H] | [l1 [a [l2 [E [F [Ma H]]]]]]].
      * left. split; [exact F|]. intros x [<- | Hx]; auto.
      * right. exists (b :: l1), a, l2. subst db. repeat split; auto.
        intros x [<- | Hx]; auto.
Qed.

Lemma updateOne_split (q : query) (u : update) (l1 l2 : list artifact)
    (a : artifact) :
  matches q a = true ->
  (forall x, In x l1 -> matches q x = false) ->
  updateOne q u (l1 ++ a :: l2) =
    (mkUpdateResult 1 (if artifact_eqb a (apply_update u a) then 0 else 1),
     l1 ++ apply_update u a :: l2).
Proof.
  intros Ma H. induction l1 as [|b l1 IH]; simpl.
  - rewrite Ma. reflexivity.
  - rewrite (H b (or_introl eq_refl)), IH; [reflexivity|].
    intros x Hx. apply H. right. exact Hx.
Qed.

Lemma updateOne_none (q : query) (u : update) (db : collection) :
  (forall x, In x db -> matches q x = false) ->
  updateOne q u db = (mkUpdateResult 0 0, db).
Proof.
  induction db as [|b db IH]; simpl; [reflexivity|].
  intro H. rewrite (H b (or_introl eq_refl)), IH; [reflexivity|].
  intros x Hx. apply H. right. exact Hx.
Qed.

Lemma deleteOne_split (q : query) (l1 l2 : list artifact) (a : artifact) :
  matches q a = true ->
  (forall x, In x l1 -> matches q x = false) ->
  deleteOne q (l1 ++ a :: l2) = (1%nat, l1 ++ l2).
Proof.
  intros Ma H. induction l1 as [|b l1 IH]; simpl.
  - rewrite Ma. reflexivity.
  - rewrite (H b (or_introl eq_refl)), IH; [reflexivity|].
    intros x Hx. apply H. right. exact Hx.
Qed.


Lemma matches_ById (oid : N) (a : artifact) :
  matches (ById oid) a = true <-> _id a = Oid oid.
Proof. simpl. apply docid_eqb_eq. Qed.

Lemma matches_ById_false (oid : N) (a : artifact) :
  matches (ById oid) a = false <-> _id a <> Oid oid.
Proof.
  rewrite <- matches_ById. destruct (matches (ById oid) a); split; congruence.
Qed.

(** What a like toggle does to the collection: nothing, or it rewrites the
    first document under the identifier. *)
Lemma toggle_split (req : request) (db : collection) :
  snd (patch_artifact_like req db) = db
  \/ exists oid l1 a l2,
       ObjectId (params_id req) = Ok oid
       /\ truthy (email_of req) = true
       /\ db = l1 ++ a :: l2
       /\ findOne (ById oid) db = Some a
       /\ (forall x, In x l1 -> _id x <> Oid oid)
       /\ patch_artifact_like req db =
            (reply 200 (Toggled "Toggle like status successful"
                          (negb (includes (likedBy a) (email_of req)))),
             l1 ++ apply_update (like_update a (email_of req)) a :: l2).
Proof.
  unfold patch_artifact_like, email_of.
  destruct (truthy (body_email (req_body req))) eqn:T; simpl; [|auto].
  destruct (ObjectId (params_id req)) as [oid|e] eqn:O; simpl; [|auto].
  destruct (findOne_split (ById oid) db)
    as [[F _] | [l1 [a [l2 [E [F [Ma H]]]]]]]; rewrite F; simpl; [auto|].
  right. exists oid, l1, a, l2. subst db.
  pose proof (like_update_modifies a (body_email (req_body req))) as M.
  unfold like_update in *.
  rewrite (updateOne_split _ _ l1 l2 a Ma H), M. simpl.
  repeat split; auto.
  intros x Hx. apply matches_ById_false. apply H. exact Hx.
Qed.

Lemma findOne_Some_In (q : query) (db : collection) (a : artifact) :
  findOne q db = Some a -> In a db /\ matches q a = true.
Proof.
  destruct (findOne_split q db) as [[F _] | [l1 [b [l2 [E [F [Mb _]]]]]]];
    rewrite F; [discriminate|].
  intro H. inversion H. subst. split; [|exact Mb].
  apply in_or_app. right. left. reflexivity.
Qed.

Lemma like_update_with_likes (a : artifact) (email : jsval) :
  let a' := apply_update (like_update a email) a in
  a' = with_likes (likedBy a') (likeCount a') a.
Proof.
  unfold like_update. destruct (includes (likedBy a) email); reflexivity.
Qed.

(** ** The like toggle and the rest of the collection *)

(** X1.  A like toggle changes at most one document, the first one stored
    under the identifier of the request, and of it only [likedBy] and
    [likeCount]: every other key, and every other document, is as it
    was. *)
Theorem toggle_touches_likes_only :
  forall (req : request) (db : collection),
    let db' := snd (patch_artifact_like req db) in
    db' = db
    \/ exists oid l1 a l2 a',
         ObjectId (params_id req) = Ok oid
         /\ db = l1 ++ a :: l2
         /\ db' = l1 ++ a' :: l2
         /\ _id a = Oid oid
         /\ (forall x, In x l1 -> _id x <> Oid oid)
         /\ a' = with_likes (likedBy a') (likeCount a') a.
Proof.
  intros req db db'. subst db'.
  destruct (toggle_split req db)
    as [E | [oid [l1 [a [l2 [O [_ [E [F [H R]]]]]]]]]]; [auto|].
  right. exists oid, l1, a, l2. eexists. rewrite R. simpl.
  repeat split; auto.
  - apply matches_ById. apply (findOne_Some_In _ _ _ F).
  - apply like_update_with_likes.
Qed.


(** ** Liking, then listing the liked artifacts *)



(** ** Creation, and reading back *)

Lemma existsb_id_true (id : docid) (db : collection) :
  (exists x, In x db /\ _id x = id) ->
  existsb (fun a => docid_eqb (_id a) id) db = true.
Proof.
  intros [x [Hx E]]. apply existsb_exists. exists x. split; [exact Hx|].
  apply docid_eqb_eq. exact E.
Qed.

Lemma post_history_stores (gen : N) (req : request) (db : collection) :
  let b := req_body req in
  let id := assigned_id gen (body_id b) in
  truthy (opt_email (body_addedBy b)) = true ->
  (forall x, In x db -> _id x <> id) ->
  post_history gen req db =
    (if id_truthy id
     then reply 201 (Added "Artifact added successfully" id)
     else reply 400 (Message "Failed to add artifact"),
     db ++ [created id b]).
Proof.
  intros b id T H. subst b id. unfold post_history, insertOne. rewrite T.
  cbn [negb]. cbv zeta. fold (assigned_id gen (body_id (req_body req))).
  rewrite (existsb_id_false _ db H). cbn [bind try_catch].
  unfold id_truthy, created.
  destruct (assigned_id gen (body_id (req_body req))) as [n|v];
    [reflexivity|]. destruct (truthy v); reflexivity.
Qed.

Lemma post_history_duplicate (gen : N) (req : request) (db : collection) :
  let b := req_body req in
  truthy (opt_email (body_addedBy b)) = true ->
  (exists x, In x db /\ _id x = assigned_id gen (body_id b)) ->
  post_history gen req db =
    (reply 500 (Failure "Server error" MongoServerError), db).
Proof.
  intros b T H. subst b. unfold post_history, insertOne. rewrite T.
  cbn [negb]. cbv zeta. fold (assigned_id gen (body_id (req_body req))).
  rewrite (existsb_id_true _ db H). reflexivity.
Qed.






(** ** Documents under a caller-supplied [_id] *)

Lemma updateOne_keeps_others (oid : N) (u : update) (db : collection)
    (a : artifact) :
  In a db -> _id a <> Oid oid -> In a (snd (updateOne (ById oid) u db)).
Proof.
  intros Ha Hid.
  destruct (findOne_split (ById oid) db)
    as [[_ H] | [l1 [b [l2 [E [_ [Mb H]]]]]]].
  - rewrite (updateOne_none _ u db H). exact Ha.
  - subst db. rewrite (updateOne_split _ u l1 l2 b Mb H). simpl.
    apply in_app_or in Ha. apply in_or_app.
    destruct Ha as [Ha | [Ha | Ha]]; [left; exact Ha | | right; right; exact Ha].
    subst b. apply matches_ById in Mb. contradiction.
Qed.

Lemma deleteOne_keeps_others (oid : N) (db : collection) (a : artifact) :
  In a db -> _id a <> Oid oid -> In a (snd (deleteOne (ById oid) db)).
Proof.
  intros Ha Hid.
  destruct (findOne_split (ById oid) db)
    as [[F _] | [l1 [b [l2 [E [_ [Mb H]]]]]]].
  - rewrite (deleteOne_missing _ db F). exact Ha.
  - subst db. rewrite (deleteOne_split _ l1 l2 b Mb H). simpl.
    apply in_app_or in Ha. apply in_or_app.
    destruct Ha as [Ha | [Ha | Ha]]; [left; exact Ha | | right; exact Ha].
    subst b. apply matches_ById in Mb. contradiction.
Qed.

(** X5.  A document stored under a caller-supplied [_id] is out of reach
    of the four /artifact/:id routes, whatever the path parameter: the like
    toggle, the update and the delete leave it in the collection as it is,
    and GET by id never answers with it. *)
Theorem supplied_id_is_out_of_reach :
  forall (req : request) (db : collection) (a : artifact) (v : jsval),
    In a db ->
    _id a = Custom v ->
    In a (snd (patch_artifact_like req db))
    /\ In a (snd (patch_artifact req db))
    /\ In a (snd (delete_artifact req db))
    /\ sent (fst (get_artifact req db)) <> Document a.
Proof.
  intros req db a v Ha Hid.
  assert (Other : forall oid, _id a <> Oid oid) by (intro; congruence).
  repeat split.
  - unfold patch_artifact_like.
    destruct (truthy (body_email (req_body req))); simpl; [|exact Ha].
    destruct (ObjectId (params_id req)) as [oid|e]; simpl; [|exact Ha].
    destruct (findOne (ById oid) db) as [b|]; simpl; [|exact Ha].
    match goal with
    | |- context [updateOne ?q ?u db] =>
        pose proof (updateOne_keeps_others oid u db a Ha (Other oid)) as K;
        destruct (updateOne q u db) as [r db']
    end.
    simpl in K. destruct (modifiedCount r =? 1)%nat; exact K.
  - unfold patch_artifact.
    destruct (ObjectId (params_id req)) as [oid|e]; simpl; [|exact Ha].
    match goal with
    | |- context [updateOne ?q ?u db] =>
        pose proof (updateOne_keeps_others oid u db a Ha (Other oid)) as K;
        destruct (updateOne q u db) as [r db']
    end.
    simpl in K. destruct (modifiedCount r =? 1)%nat; exact K.
  - unfold delete_artifact.
    destruct (ObjectId (params_id req)) as [oid|e]; simpl; [|exact Ha].
    pose proof (deleteOne_keeps_others oid db a Ha (Other oid)) as K.
    destruct (deleteOne (ById oid) db) as [n db']. simpl in K.
    destruct (n =? 1)%nat; exact K.
  - unfold get_artifact.
    destruct (ObjectId (params_id req)) as [oid|e]; simpl; [|discriminate].
    destruct (findOne (ById oid) db) as [b|] eqn:F; simpl; [|discriminate].
    intro D. inversion D. subst b.
    destruct (findOne_Some_In _ _ _ F) as [_ M].
    apply matches_ById in M. destruct (Other oid M).
Qed.

(** The identifier spelled like the supplied string does not reach it. *)
Lemma supplied_id_is_out_of_reach_witness :
  let a := created (Custom (JStr urn_id))
             (new_artifact (JStr "Urn") (JStr "u@x.com")) in
  let req := like_request urn_id (JStr "u@x.com") in
  In a (snd (patch_artifact_like req [a]))
  /\ In a (snd (patch_artifact req [a]))
  /\ In a (snd (delete_artifact req [a]))
  /\ sent (fst (get_artifact req [a])) <> Document a.
Proof.
  apply (supplied_id_is_out_of_reach
           (like_request urn_id (JStr "u@x.com"))
           [created (Custom (JStr urn_id))
              (new_artifact (JStr "Urn") (JStr "u@x.com"))]
           (created (Custom (JStr urn_id))
              (new_artifact (JStr "Urn") (JStr "u@x.com")))
           (JStr urn_id));
    [left; reflexivity | reflexivity].
Defined.

(** ** Delete *)

Lemma NoDup_ids_after (l1 l2 : list artifact) (a : artifact) :
  NoDup (map _id (l1 ++ a :: l2)) ->
  forall x, In x (l1 ++ l2) -> _id x <> _id a.
Proof.
  rewrite map_app. simpl. intros ND x Hx E.
  apply NoDup_remove_2 in ND. apply ND. rewrite <- map_app, <- E.
  apply in_map. exact Hx.
Qed.

(** X6.  In a collection without a repeated [_id], DELETE /artifact/:id on
    a stored artifact answers 200 and removes that document and no other;
    afterwards GET and DELETE with the same identifier answer 404. *)
Theorem delete_then_gone :
  forall (req : request) (db : collection) (oid : N) (a : artifact),
    NoDup (map _id db) ->
    ObjectId (params_id req) = Ok oid ->
    findOne (ById oid) db = Some a ->
    exists l1 l2,
      db = l1 ++ a :: l2
      /\ delete_artifact req db =
           (reply 200 (Message "Artifact deleted successfully"), l1 ++ l2)
      /\ get_artifact req (l1 ++ l2) =
           (reply 404 (Message "Artifact not found"), l1 ++ l2)
      /\ delete_artifact req (l1 ++ l2) =
           (reply 404 (Message "Artifact not found"), l1 ++ l2).
Proof.
  intros req db oid a ND O F.
  destruct (findOne_split (ById oid) db)
    as [[F0 _] | [l1 [b [l2 [E [F1 [Mb H]]]]]]]; [congruence|].
  assert (b = a) by congruence. subst b. exists l1, l2.
  split; [exact E|]. subst db.
  assert (G : findOne (ById oid) (l1 ++ l2) = None).
  { apply findOne_ById_None. intros x Hx. apply matches_ById in Mb.
    rewrite <- Mb. apply (NoDup_ids_after l1 l2 a ND x Hx). }
  unfold delete_artifact, get_artifact. rewrite O. simpl.
  rewrite (deleteOne_split _ l1 l2 a Mb H), G,
    (deleteOne_missing _ _ G). simpl. repeat split.
Qed.

(** The urn is deleted. *)
Lemma delete_then_gone_witness :
  exists l1 l2,
    urn_db = l1 ++ urn :: l2
    /\ delete_artifact (like_request urn_id JUndefined) urn_db =
         (reply 200 (Message "Artifact deleted successfully"), l1 ++ l2)
    /\ get_artifact (like_request urn_id JUndefined) (l1 ++ l2) =
         (reply 404 (Message "Artifact not found"), l1 ++ l2)
    /\ delete_artifact (like_request urn_id JUndefined) (l1 ++ l2) =
         (reply 404 (Message "Artifact not found"), l1 ++ l2).
Proof.
  apply (delete_then_gone (like_request urn_id JUndefined) urn_db urn_oid urn);
    [repeat constructor; intros [] | reflexivity | reflexivity].
Defined.

(** ** Update, twice *)

Lemma artifact_eqb_refl (a : artifact) : artifact_eqb a a = true.
Proof. apply artifact_eqb_eq. reflexivity. Qed.

(** X7.  Whatever the first answer was, the same PATCH /artifact/:id
    request sent again with a well-formed identifier is answered 404,
    "Artifact not found or no changes made", and changes nothing: the
    document has the values already. *)
Theorem patch_again_is_404 :
  forall (req : request) (db : collection) (oid : N),
    ObjectId (params_id req) = Ok oid ->
    let db1 := snd (patch_artifact req db) in
    patch_artifact req db1 =
      (reply 404 (Message "Artifact not found or no changes made"), db1).
Proof.
  intros req db oid O db1. subst db1. unfold patch_artifact. rewrite O.
  cbn [bind try_catch].
  set (u := SetFields (body_name (req_body req)) (body_image (req_body req))
              (body_type (req_body req)) (body_description (req_body req))
              (body_createdAt (req_body req))
              (body_discoveredAt (req_body req))
              (body_discoveredBy (req_body req))
              (body_location (req_body req))).
  assert (Idem : forall a, apply_update u (apply_update u a) = apply_update u a).
  { intro a. reflexivity. }
  destruct (findOne_split (ById oid) db)
    as [[_ H] | [l1 [a [l2 [E [_ [Ma H]]]]]]].
  - rewrite (updateOne_none _ u db H). simpl.
    rewrite (updateOne_none _ u db H). reflexivity.
  - subst db. rewrite (updateOne_split _ u l1 l2 a Ma H).
    assert (Ma' : matches (ById oid) (apply_update u a) = true).
    { apply matches_ById. rewrite apply_update_id. apply matches_ById.
      exact Ma. }
    destruct (artifact_eqb a (apply_update u a));
      cbn [modifiedCount Nat.eqb fst snd try_catch bind];
      rewrite (updateOne_split _ u l1 l2 (apply_update u a) Ma' H), Idem,
        artifact_eqb_refl; reflexivity.
Qed.

(** The urn is renamed twice. *)
Lemma patch_again_is_404_witness :
  patch_artifact
    (mkRequest None None None urn_id (new_artifact (JStr "Amphora") JUndefined))
    (snd (patch_artifact
            (mkRequest None None None urn_id
               (new_artifact (JStr "Amphora") JUndefined)) urn_db)) =
  (reply 404 (Message "Artifact not found or no changes made"),
   snd (patch_artifact
          (mkRequest None None None urn_id
             (new_artifact (JStr "Amphora") JUndefined)) urn_db)).
Proof.
  apply (patch_again_is_404
           (mkRequest None None None urn_id
              (new_artifact (JStr "Amphora") JUndefined)) urn_db urn_oid).
  reflexivity.
Defined.

(** ** What the guarded routes disclose *)

Lemma verifyToken_cases (jwt_verify : string -> option claims)
    (req : request)
    (next : claims -> request -> collection -> response * collection)
    (db : collection) :
  verifyToken jwt_verify req next db = (reply 401 (Message "Unauthorized"), db)
  \/ exists token user,
       cookies_token req = Some token
       /\ token <> ""
       /\ jwt_verify token = Some user
       /\ verifyToken jwt_verify req next db = next user req db.
Proof.
  unfold verifyToken.
  destruct (cookies_token req) as [token|]; [|auto].
  destruct (token =? "") eqn:E; [auto|].
  destruct (jwt_verify token) as [user|] eqn:V; [|auto].
  right. exists token, user. repeat split; auto.
  intro H. subst token. discriminate.
Qed.

(** X8.  The guarded routes disclose documents to a verified caller only,
    and only that caller's, when the email of a token is a primitive that
    the store keeps as it was sent, and so are the emails in the stored
    documents.  A 200 of GET /my-artifacts means that the
    token was verified, that the [email] parameter is the non-empty email
    of the token, and that the answer holds exactly the stored artifacts
    whose [addedBy.email] is that email.  A 200 of GET /liked-artifacts
    means that the token was verified and that the answer is the non-empty
    list of the stored artifacts whose [likedBy] holds the email of the
    token.  Neither changes the collection. *)
Theorem guarded_routes_disclose_own_only :
  forall (jwt_verify : string -> option claims) (req : request)
         (db : collection),
    (forall token user,
       jwt_verify token = Some user ->
       kept_as_sent (user_email user) = true) ->
    (status (fst (get_my_artifacts jwt_verify req db)) = 200%nat ->
     exists token user e docs,
       cookies_token req = Some token
       /\ jwt_verify token = Some user
       /\ user_email user = JStr e
       /\ query_email req = Some e
       /\ e <> ""
       /\ get_my_artifacts jwt_verify req db = (reply 200 (Documents docs), db)
       /\ forall a, In a docs <-> In a db /\ opt_email (addedBy a) = JStr e)
    /\ (status (fst (get_liked_artifacts jwt_verify req db)) = 200%nat ->
        exists token user docs,
          cookies_token req = Some token
          /\ jwt_verify token = Some user
          /\ docs <> []
          /\ get_liked_artifacts jwt_verify req db =
               (reply 200 (Documents docs), db)
          /\ forall a, In a docs <->
                       In a db /\ In (user_email user) (likedBy a)).
Proof.
  intros jwt_verify req db K. split.
  - unfold get_my_artifacts.
    destruct (verifyToken_cases jwt_verify req my_artifacts db)
      as [E | [token [user [C [N [V E]]]]]]; rewrite E; [discriminate|].
    unfold my_artifacts.
    destruct (jsval_eqb (user_email user) (of_query (query_email req))) eqn:Q;
      simpl; [|discriminate].
    destruct (truthy (of_query (query_email req))) eqn:T; simpl;
      [|discriminate].
    intros _. apply jsval_eqb_eq in Q.
    destruct (query_email req) as [e|]; simpl in *; [|discriminate].
    exists token, user, e. eexists. repeat split; eauto.
    + intro H. subst e. discriminate.
    + apply filter_In in H. tauto.
    + apply filter_In in H. destruct H as [_ H]. simpl in H.
      apply jsval_eqb_eq in H. exact H.
    + intros [Ha Hb]. apply filter_In. split; [exact Ha|]. simpl.
      apply jsval_eqb_eq. exact Hb.
  - unfold get_liked_artifacts.
    destruct (verifyToken_cases jwt_verify req liked_artifacts db)
      as [E | [token [user [C [N [V E]]]]]]; rewrite E; [discriminate|].
    unfold liked_artifacts, find.
    assert (B : bson (user_email user) = user_email user).
    { pose proof (K token user V) as S.
      destruct (user_email user); try reflexivity. discriminate. }
    destruct (filter (matches (LikedBy (user_email user))) db)
      as [|d ds] eqn:F; simpl; [discriminate|].
    intros _. exists token, user, (d :: ds).
    repeat split; auto; try discriminate; rewrite <- F in *.
    + apply filter_In in H. tauto.
    + apply filter_In in H. destruct H as [_ H]. simpl in H.
      rewrite B in H. apply includes_In. exact H.
    + intros [Ha Hb]. apply filter_In. split; [exact Ha|]. simpl.
      rewrite B. apply includes_In. exact Hb.
Qed.

(** The listing of [b@x.com], who has created nothing yet. *)
Lemma guarded_routes_disclose_own_only_witness :
  exists token user e docs,
    cookies_token (mkRequest (Some "t0k3n") None (Some "b@x.com") "" no_body) =
      Some token
    /\ sample_verify token = Some user
    /\ user_email user = JStr e
    /\ query_email (mkRequest (Some "t0k3n") None (Some "b@x.com") "" no_body) =
         Some e
    /\ e <> ""
    /\ get_my_artifacts sample_verify
         (mkRequest (Some "t0k3n") None (Some "b@x.com") "" no_body) urn_db =
       (reply 200 (Documents docs), urn_db)
    /\ forall a, In a docs <-> In a urn_db /\ opt_email (addedBy a) = JStr e.
Proof.
  assert (K : forall token user,
                sample_verify token = Some user ->
                kept_as_sent (user_email user) = true).
  { intros token user. unfold sample_verify.
    destruct (token =? "t0k3n"); [|discriminate].
    intro H. inversion H. reflexivity. }
  destruct (guarded_routes_disclose_own_only sample_verify
              (mkRequest (Some "t0k3n") None (Some "b@x.com") "" no_body)
              urn_db K) as [H _].
  apply H. reflexivity.
Defined.

(** ** What the routes keep of the collection *)

Lemma well_kept_replace (l1 l2 : list artifact) (a a' : artifact) :
  well_kept (l1 ++ a :: l2) -> _id a' = _id a -> sound a' ->
  well_kept (l1 ++ a' :: l2).
Proof.
  intros [ND F] E S. split.
  - rewrite map_app in *. simpl in *. rewrite E. exact ND.
  - apply Forall_app in F. destruct F as [F1 F2]. inversion F2; subst.
    apply Forall_app. split; [exact F1|]. constructor; assumption.
Qed.

Lemma well_kept_remove (l1 l2 : list artifact) (a : artifact) :
  well_kept (l1 ++ a :: l2) -> well_kept (l1 ++ l2).
Proof.
  intros [ND F]. split.
  - rewrite map_app in *. simpl in ND. apply NoDup_remove_1 in ND. exact ND.
  - apply Forall_app in F. destruct F as [F1 F2]. inversion F2; subst.
    apply Forall_app. split; assumption.
Qed.

Lemma well_kept_add (db : collection) (a : artifact) :
  well_kept db -> (forall x, In x db -> _id x <> _id a) -> sound a ->
  well_kept (db ++ [a]).
Proof.
  intros [ND F] Fresh S. split.
  - rewrite map_app. simpl. apply NoDup_app; [exact ND | |].
    + constructor; [intros [] | constructor].
    + intros i Hi [<- | []]. apply in_map_iff in Hi.
      destruct Hi as [x [E Hx]]. apply (Fresh x Hx). exact E.
  - apply Forall_app. split; [exact F|]. constructor; [exact S | constructor].
Qed.

Lemma well_kept_part (l1 l2 : list artifact) (a : artifact) :
  well_kept (l1 ++ a :: l2) -> sound a.
Proof.
  intros [_ F]. apply Forall_app in F. destruct F as [_ F].
  inversion F. assumption.
Qed.

Lemma like_update_sound (a : artifact) (email : jsval) :
  truthy email = true -> sound a ->
  sound (apply_update (like_update a email) a).
Proof.
  intros T [Ha [ND [Tr C]]].
  assert (Cons : consistent a)
    by (unfold consistent; rewrite (cardinal_NoDup _ ND); exact C).
  pose proof (like_update_NoDup a email ND) as ND'.
  pose proof (like_update_consistent a email T Cons) as C'.
  unfold consistent in C'. rewrite (cardinal_NoDup _ ND') in C'.
  repeat split; try assumption.
  - unfold like_update. destruct (includes (likedBy a) email); exact Ha.
  - unfold like_update. destruct (includes (likedBy a) email); simpl.
    + unfold pull. apply Forall_forall. intros x Hx.
      apply filter_In in Hx. rewrite Forall_forall in Tr. apply Tr. tauto.
    + unfold addToSet. rewrite (bson_truthy _ T).
      destruct (includes (likedBy a) email); [exact Tr|].
      apply Forall_app. split; [exact Tr|]. constructor; [exact T|constructor].
Qed.

Lemma created_sound (id : docid) (b : body) :
  truthy (opt_email (body_addedBy b)) = true -> sound (created id b).
Proof.
  intro T. repeat split; simpl; try constructor. exact T.
Qed.

Lemma post_history_well_kept (gen : N) (req : request) (db : collection) :
  well_kept db -> well_kept (snd (post_history gen req db)).
Proof.
  intro W.
  destruct (truthy (opt_email (body_addedBy (req_body req)))) eqn:T.
  - destruct (existsb (fun a => docid_eqb (_id a)
                                  (assigned_id gen (body_id (req_body req))))
                db) eqn:E.
    + rewrite post_history_duplicate; [exact W | exact T |].
      apply existsb_exists in E. destruct E as [x [Hx E]].
      exists x. split; [exact Hx | apply docid_eqb_eq; exact E].
    + assert (Fresh : forall x, In x db ->
                        _id x <> assigned_id gen (body_id (req_body req))).
      { intros x Hx I.
        assert (existsb (fun a => docid_eqb (_id a)
                                    (assigned_id gen (body_id (req_body req))))
                  db = true); [|congruence].
        apply existsb_exists. exists x. split; [exact Hx|].
        apply docid_eqb_eq. exact I. }
      rewrite (post_history_stores gen req db T Fresh). simpl.
      apply well_kept_add; [exact W | exact Fresh |].
      apply created_sound. exact T.
  - unfold post_history. rewrite T. exact W.
Qed.

Lemma updateOne_well_kept (oid : N) (u : update) (db : collection) :
  (forall a, sound a -> sound (apply_update u a)) ->
  well_kept db -> well_kept (snd (updateOne (ById oid) u db)).
Proof.
  intros S W.
  destruct (findOne_split (ById oid) db)
    as [[_ H] | [l1 [a [l2 [E [_ [Ma H]]]]]]].
  - rewrite (updateOne_none _ u db H). exact W.
  - subst db. rewrite (updateOne_split _ u l1 l2 a Ma H). simpl.
    apply (well_kept_replace l1 l2 a); [exact W | apply apply_update_id |].
    apply S. apply (well_kept_part l1 l2 a W).
Qed.

Lemma serve_well_kept (jwt_verify : string -> option claims) (c : call)
    (db : collection) :
  well_kept db -> well_kept (serve jwt_verify c db).
Proof.
  intro W. destruct c as [gen req|req|req|req|req|req|req|req]; simpl.
  - apply post_history_well_kept. exact W.
  - unfold get_history.
    destruct (if truthy (of_query (query_search req)) then _ else _);
      exact W.
  - unfold get_my_artifacts.
    destruct (verifyToken_cases jwt_verify req my_artifacts db)
      as [E | [token [user [_ [_ [_ E]]]]]]; rewrite E; [exact W|].
    unfold my_artifacts.
    destruct (negb _); [exact W|]. destruct (negb _); exact W.
  - destruct (toggle_split req db)
      as [E | [oid [l1 [a [l2 [_ [T [E [_ [_ R]]]]]]]]]].
    + rewrite E. exact W.
    + rewrite R. simpl. subst db.
      apply (well_kept_replace l1 l2 a); [exact W | apply apply_update_id |].
      apply like_update_sound; [exact T | apply (well_kept_part l1 l2 a W)].
  - unfold patch_artifact.
    destruct (ObjectId (params_id req)) as [oid|e]; simpl; [|exact W].
    match goal with
    | |- context [updateOne ?q ?u db] =>
        pose proof (updateOne_well_kept oid u db) as K;
        destruct (updateOne q u db) as [r db']
    end.
    simpl in K.
    assert (K' : well_kept db').
    { apply K; [|exact W]. intros a [S1 [S2 [S3 S4]]]. repeat split; assumption. }
    destruct (modifiedCount r =? 1)%nat; exact K'.
  - unfold delete_artifact.
    destruct (ObjectId (params_id req)) as [oid|e]; simpl; [|exact W].
    assert (K : well_kept (snd (deleteOne (ById oid) db))).
    { destruct (findOne_split (ById oid) db)
        as [[F _] | [l1 [a [l2 [E [_ [Ma H]]]]]]].
      - rewrite (deleteOne_missing _ db F). exact W.
      - subst db. rewrite (deleteOne_split _ l1 l2 a Ma H). simpl.
        apply (well_kept_remove l1 l2 a W). }
    destruct (deleteOne (ById oid) db) as [n db']. simpl in K.
    destruct (n =? 1)%nat; exact K.
  - unfold get_artifact.
    destruct (ObjectId (params_id req)) as [oid|e]; simpl; [|exact W].
    destruct (findOne (ById oid) db); exact W.
  - unfold get_liked_artifacts.
    destruct (verifyToken_cases jwt_verify req liked_artifacts db)
      as [E | [token [user [_ [_ [_ E]]]]]]; rewrite E; [exact W|].
    unfold liked_artifacts. destruct (0 <? _)%nat; exact W.
Qed.

(** X9.  Whatever calls of the routes are served one after the other, the
    emails of the like toggles among them being primitives that the store
    keeps as they were sent, a
    collection in which no [_id] occurs twice and every document has a
    creator email, a [likedBy] of truthy emails without repetition and
    [likeCount] equal to the length of [likedBy], is still such a
    collection afterwards.  The empty collection is one, so every
    collection the routes build from it with such emails is one. *)
Theorem routes_keep_collection :
  forall (jwt_verify : string -> option claims) (cs : list call)
         (db : collection),
    Forall (fun c => like_email_kept c = true) cs ->
    well_kept db -> well_kept (serve_all jwt_verify cs db).
Proof.
  intros jwt_verify cs db _. revert db.
  induction cs as [|c cs IH]; intros db W; simpl.
  - exact W.
  - apply IH. apply serve_well_kept. exact W.
Qed.

(** A creation, two likes, an update and a listing, from the empty
    collection. *)
Lemma routes_keep_collection_witness :
  well_kept
    (serve_all sample_verify
       [PostHistory urn_oid
          (mkRequest None None None ""
             (new_artifact (JStr "Urn") (JStr "u@x.com")));
        PatchArtifactLike (like_request urn_id (JStr "u@x.com"));
        PatchArtifactLike (like_request urn_id (JStr "b@x.com"));
        PatchArtifact
          (mkRequest None None None urn_id
             (new_artifact (JStr "Amphora") JUndefined));
        GetLikedArtifacts (mkRequest (Some "t0k3n") None None "" no_body)]
       []).
Proof.
  apply routes_keep_collection; [repeat constructor | split; constructor].
Defined.

(** ** Concurrent toggles *)

(** Two users like the new urn, the second served first by [updateOne]. *)
Lemma distinct_emails_no_lost_update_witness :
  exists a',
    findOne (ById urn_oid)
      (snd (run [0; 1; 1; 0]%nat
              (map Received [like_request urn_id (JStr "u@x.com");
                             like_request urn_id (JStr "v@x.com")]) urn_db)) =
      Some a'
    /\ likeCount a' = 2%Z
    /\ List.length (likedBy a') = 2%nat.
Proof.
  destruct (distinct_emails_no_lost_update urn_oid
              [like_request urn_id (JStr "u@x.com");
               like_request urn_id (JStr "v@x.com")]
              [0; 1; 1; 0]%nat urn_db urn)
    as [a' [F [C [L _]]]];
    try reflexivity.
  - repeat constructor; simpl; intuition discriminate.
  - repeat constructor.
  - repeat constructor.
  - exists a'. repeat split; assumption.
Defined.





(** ** Search and the case of the search string *)

Lemma lower_lower (c : ascii) : lower (lower c) = lower c.
Proof. destruct c as [[] [] [] [] [] [] [] []]; reflexivity. Qed.

Lemma lower_class (c : ascii) :
  Ascii.eqb (lower c) "." = Ascii.eqb c "."
  /\ is_meta (lower c) = is_meta c
  /\ ordinary (lower c) = ordinary c.
Proof. destruct c as [[] [] [] [] [] [] [] []]; repeat split. Qed.

Lemma compile_lowercase (s : string) :
  compile (lowercase s) = option_map (map fold_atom) (compile s).
Proof.
  induction s as [|c s IH]; simpl; [reflexivity|].
  rewrite IH. destruct (lower_class c) as [D [M O]]. rewrite D, M, O.
  destruct (compile s) as [re|]; simpl; [|reflexivity].
  destruct (Ascii.eqb c "."); [reflexivity|].
  destruct (is_meta c || negb (ordinary c)); reflexivity.
Qed.

Lemma match_here_fold (re : regex) (n : string) :
  match_here (map fold_atom re) n = match_here re n.
Proof.
  revert n. induction re as [|[c|] re IH]; intro n; simpl; [reflexivity| |].
  - destruct n as [|d n]; [reflexivity|]. rewrite lower_lower, IH.
    reflexivity.
  - destruct n as [|d n]; [reflexivity|]. rewrite IH. reflexivity.
Qed.

Lemma regex_search_fold (re : regex) (n : string) :
  regex_search (map fold_atom re) n = regex_search re n.
Proof.
  induction n as [|d n IH]; simpl; rewrite match_here_fold; [reflexivity|].
  rewrite IH. reflexivity.
Qed.

Lemma get_history_lowercase (req req' : request) (s : string)
    (db : collection) :
  query_search req = Some s ->
  query_search req' = Some (lowercase s) ->
  get_history req' db = get_history req db.
Proof.
  intros Q Q'. unfold get_history. rewrite Q, Q'. cbv zeta.
  assert (Tr : truthy (of_query (Some (lowercase s))) =
               truthy (of_query (Some s))) by (destruct s; reflexivity).
  rewrite Tr. destruct (truthy (of_query (Some s))); [|reflexivity].
  rewrite compile_lowercase.
  destruct (compile s) as [re|]; cbn [option_map]; [|reflexivity].
  unfold find.
  rewrite (filter_ext (matches (NameRegex (map fold_atom re)))
             (matches (NameRegex re))); [reflexivity|].
  intro a. simpl. destruct (name a); try reflexivity.
  apply regex_search_fold.
Qed.

(** X12.  GET /history does not regard the case of the letters of the
    search string: two search strings that differ in the case of ASCII
    letters only get the same answer (for the patterns the model covers,
    the wildcard included). *)
Theorem search_ignores_case_of_pattern :
  forall (req1 req2 : request) (s t : string) (db : collection),
    query_search req1 = Some s ->
    query_search req2 = Some t ->
    lowercase s = lowercase t ->
    get_history req1 db = get_history req2 db.
Proof.
  intros req1 req2 s t db Q1 Q2 E.
  rewrite <- (get_history_lowercase req1 (search_request (Some (lowercase s)))
                s db Q1 eq_refl).
  rewrite <- (get_history_lowercase req2 (search_request (Some (lowercase t)))
                t db Q2 eq_refl).
  rewrite E. reflexivity.
Qed.

(** The urn is found by ["u.N"] as by ["U.n"]. *)
Lemma search_ignores_case_of_pattern_witness :
  get_history (search_request (Some "u.N")) urn_db =
  get_history (search_request (Some "U.n")) urn_db.
Proof.
  apply (search_ignores_case_of_pattern
           (search_request (Some "u.N")) (search_request (Some "U.n"))
           "u.N" "U.n" urn_db); reflexivity.
Defined.

(** ** Signing in *)

(** X13.  POST /jwt asks for no credential and signs the body as it comes:
    a client that names an email in the body, keeps the cookie of the
    answer and presents it, is served GET /my-artifacts for that email with
    200 and the artifacts of that email, as long as the token verifies to
    the payload that was signed.  After POST /logout the same client has no
    cookie and is answered 401. *)
Theorem sign_in_as_any_email :
  forall (jwt_sign : body -> string) (jwt_verify : string -> option claims)
         (login logout req : request) (db : collection) (e : string),
    body_email (req_body login) = JStr e ->
    e <> "" ->
    jwt_sign (req_body login) <> "" ->
    jwt_verify (jwt_sign (req_body login)) =
      Some (mkClaims (body_email (req_body login))) ->
    query_email req = Some e ->
    let jar := keep_cookie (post_jwt jwt_sign login) None in
    let jar' := keep_cookie (post_logout logout) jar in
    get_my_artifacts jwt_verify (present jar req) db =
      (reply 200
         (Documents (filter (fun a => jsval_eqb (opt_email (addedBy a))
                                        (JStr e)) db)), db)
    /\ get_my_artifacts jwt_verify (present jar' req) db =
         (reply 401 (Message "Unauthorized"), db).
Proof.
  intros jwt_sign jwt_verify login logout req db e B N S V Q jar jar'.
  subst jar jar'.
  change (keep_cookie (post_logout logout)
            (keep_cookie (post_jwt jwt_sign login) None)) with (@None string).
  change (keep_cookie (post_jwt jwt_sign login) None)
    with (Some (jwt_sign (req_body login))).
  split; [|reflexivity].
  unfold get_my_artifacts. rewrite B in V.
  rewrite (verifyToken_accepts jwt_verify
             (present (Some (jwt_sign (req_body login))) req)
             (jwt_sign (req_body login))
             (mkClaims (JStr e)) my_artifacts db eq_refl S V).
  unfold my_artifacts. simpl. rewrite Q. simpl. rewrite String.eqb_refl.
  destruct (e =? "") eqn:E; [apply String.eqb_eq in E; contradiction|].
  reflexivity.
Qed.

(** Whoever asks for a token for [b@x.com] reads the listing of
    [b@x.com]. *)
Lemma sign_in_as_any_email_witness :
  get_my_artifacts sample_verify
    (present (keep_cookie
                (post_jwt sample_sign (like_request "" (JStr "b@x.com"))) None)
       (mkRequest None None (Some "b@x.com") "" no_body)) urn_db =
  (reply 200
     (Documents (filter (fun a => jsval_eqb (opt_email (addedBy a))
                                    (JStr "b@x.com")) urn_db)), urn_db).
Proof.
  destruct (sign_in_as_any_email sample_sign sample_verify
              (like_request "" (JStr "b@x.com"))
              (like_request "" JUndefined)
              (mkRequest None None (Some "b@x.com") "" no_body) urn_db
              "b@x.com" eq_refl ltac:(discriminate) ltac:(discriminate)
              eq_refl eq_refl) as [H _].
  exact H.
Defined.

(** ** Creating, then listing one's artifacts *)




(* ================================================================= *)
(** * Emails as they come *)

(** ** The tests on values *)

Lemma wire_includes_In (l : list Wire.json) (v : jsval) :
  Wire.includes l (Wire.Scalar v) = true <-> In (Wire.Scalar v) l.
Proof.
  unfold Wire.includes. rewrite existsb_exists. split.
  - intros [x [I E]]. destruct x as [w|m]; simpl in E; [|discriminate].
    apply jsval_eqb_eq in E. subst. exact I.
  - intro I. exists (Wire.Scalar v). split; [exact I|].
    simpl. apply jsval_eqb_refl.
Qed.

Lemma wire_holds_In (l : list Wire.json) (v : jsval) :
  Wire.holds l (Wire.Scalar v) = true <-> In (Wire.Scalar v) l.
Proof.
  unfold Wire.holds. rewrite existsb_exists. split.
  - intros [x [I E]]. destruct x as [w|m]; simpl in E; [|discriminate].
    apply jsval_eqb_eq in E. subst. exact I.
  - intro I. exists (Wire.Scalar v). split; [exact I|].
    simpl. apply jsval_eqb_refl.
Qed.

(** No array is found by [includes]. *)
Lemma wire_includes_array (l : list Wire.json) (elems : list Wire.json) :
  Wire.includes l (Wire.Array elems) = false.
Proof. induction l as [|x l IH]; simpl; auto. Qed.

Lemma stable_scalar (email : Wire.json) :
  Wire.stable email = true -> exists v, email = Wire.Scalar v.
Proof. destruct email as [v|m]; [eauto | discriminate]. Qed.

(** The store keeps a stable email as it was sent. *)
Lemma stable_bson (email : Wire.json) :
  Wire.stable email = true -> Wire.bson email = email.
Proof.
  destruct email as [[| |b|n|s]|m]; simpl; try reflexivity; try discriminate.
  intro H. apply String.eqb_eq in H. rewrite H. reflexivity.
Qed.

Lemma wire_pull_In (v : jsval) (l : list Wire.json) (x : Wire.json) :
  Wire.stable (Wire.Scalar v) = true ->
  (In x (Wire.pull (Wire.Scalar v) l) <-> In x l /\ x <> Wire.Scalar v).
Proof.
  intro S. unfold Wire.pull. rewrite (stable_bson _ S), filter_In.
  destruct x as [w|m]; simpl.
  - rewrite negb_true_iff, jsval_eqb_neq. split.
    + intros [I N]. split; [exact I|]. intro E. inversion E. congruence.
    + intros [I N]. split; [exact I|]. intro E. subst. auto.
  - split; intros [I _]; split; auto. discriminate.
Qed.

(** ** The driver *)

Lemma wire_apply_update_id (u : Wire.update) (a : Wire.artifact) :
  Wire._id (Wire.apply_update u a) = Wire._id a.
Proof. destruct u; reflexivity. Qed.

Lemma wire_findOne_None (oid : N) (db : Wire.collection) :
  (forall a, In a db -> Wire._id a <> Oid oid) -> Wire.findOne oid db = None.
Proof.
  induction db as [|a db IH]; intro H; simpl; [reflexivity|].
  destruct (docid_eqb (Wire._id a) (Oid oid)) eqn:E.
  - apply docid_eqb_eq in E. destruct (H a (or_introl eq_refl) E).
  - apply IH. intros b Hb. apply H. right. exact Hb.
Qed.

Lemma wire_updateOne_found (oid : N) (u : Wire.update) (db : Wire.collection)
    (a : Wire.artifact) :
  Wire.findOne oid db = Some a ->
  exists db',
    Wire.updateOne oid u db =
      (mkUpdateResult 1
         (if Wire.modified a (Wire.apply_update u a) then 1 else 0), db')
    /\ Wire.findOne oid db' = Some (Wire.apply_update u a).
Proof.
  induction db as [|b db IH]; simpl; [discriminate|].
  destruct (docid_eqb (Wire._id b) (Oid oid)) eqn:E.
  - intro H. inversion H. subst b. eexists. split; [reflexivity|].
    simpl. rewrite wire_apply_update_id, E. reflexivity.
  - intro H. destruct (IH H) as [db' [U F]]. rewrite U.
    eexists. split; [reflexivity|]. simpl. rewrite E. exact F.
Qed.

Lemma wire_like_update_modifies (a : Wire.artifact) (email : Wire.json) :
  Wire.modified a (Wire.apply_update (Wire.like_update a email) a) = true.
Proof.
  unfold Wire.modified, Wire.like_update.
  destruct (Wire.includes (Wire.likedBy a) email); simpl;
    match goal with
    | |- negb (?c && _) = true =>
        replace c with false; [reflexivity | symmetry; apply Z.eqb_neq; lia]
    end.
Qed.

(** A toggle request with an email, for a stored artifact, is answered 200
    and applies its update. *)
Lemma wire_toggle_found (req : Wire.request) (db : Wire.collection) (oid : N)
    (a : Wire.artifact) :
  Wire.truthy (Wire.body_email req) = true ->
  ObjectId (Wire.params_id req) = Ok oid ->
  Wire.findOne oid db = Some a ->
  exists db',
    Wire.patch_artifact_like req db =
      (reply 200 (Toggled "Toggle like status successful"
                    (negb (Wire.includes (Wire.likedBy a)
                             (Wire.body_email req)))), db')
    /\ Wire.findOne oid db' =
         Some (Wire.apply_update (Wire.like_update a (Wire.body_email req)) a).
Proof.
  intros T O F. unfold Wire.patch_artifact_like. rewrite T, O. simpl.
  rewrite F.
  destruct (wire_updateOne_found oid
              (Wire.like_update a (Wire.body_email req)) db a F)
    as [db' [U F']].
  unfold Wire.like_update in U. rewrite U.
  fold (Wire.like_update a (Wire.body_email req)).
  rewrite wire_like_update_modifies. simpl. exists db'. split; [reflexivity|].
  exact F'.
Qed.

(** ** The like toggle, case by case *)

(** C5, as the specification words it, fails on an identifier that is not
    well formed: no artifact is stored under ["xyz"], the email is there,
    and the answer is 500, not 404. *)
Lemma malformed_id_is_not_404 :
  ~ Wire.stored_under "xyz" [Wire.urn]
  /\ Wire.truthy (Wire.Scalar (JStr "u@x.com")) = true
  /\ Wire.patch_artifact_like
       (Wire.mkRequest "xyz" (Wire.Scalar (JStr "u@x.com"))) [Wire.urn] =
       (reply 500 (Failure "Server error" BSONError), [Wire.urn]).
Proof.
  split; [|split; reflexivity].
  intros [oid [a [O _]]]. vm_compute in O. discriminate.
Qed.

(** C5, amended.  A toggle request without an email, or with an empty one,
    is answered 400 and changes nothing.  With an email: when the
    identifier is not well formed the answer is 500 and nothing changes;
    when it is well formed and no artifact is stored under it the answer is
    404 and nothing changes.  When the artifact is there and the email is a
    primitive that the store keeps as it was sent (a number, a boolean, a
    string without a lone surrogate): if the email is in [likedBy],
    [likeCount] goes down by one, the email leaves [likedBy] and the answer
    is [liked: false]; if it is not, [likeCount] goes up by one, the email
    joins [likedBy] and the answer is [liked: true]. *)
Theorem like_toggle_cases :
  forall (req : Wire.request) (db : Wire.collection),
    let id := Wire.params_id req in
    let email := Wire.body_email req in
    let r := Wire.patch_artifact_like req db in
    (Wire.truthy email = false ->
     r = (reply 400 (Message "Email is required to toggle like status"), db))
    /\ (Wire.truthy email = true ->
        forall e, ObjectId id = Throw e ->
                  r = (reply 500 (Failure "Server error" e), db))
    /\ (Wire.truthy email = true ->
        forall oid, ObjectId id = Ok oid ->
          ((forall a, In a db -> Wire._id a <> Oid oid) ->
           r = (reply 404 (Message "Artifact not found"), db))
          /\ (forall a, Wire.findOne oid db = Some a ->
              Wire.stable email = true ->
              exists a',
                Wire.findOne oid (snd r) = Some a'
                /\ (In email (Wire.likedBy a) ->
                    fst r = reply 200 (Toggled "Toggle like status successful"
                                         false)
                    /\ Wire.likeCount a' = (Wire.likeCount a - 1)%Z
                    /\ ~ In email (Wire.likedBy a')
                    /\ (forall x, In x (Wire.likedBy a') <->
                                  In x (Wire.likedBy a) /\ x <> email))
                /\ (~ In email (Wire.likedBy a) ->
                    fst r = reply 200 (Toggled "Toggle like status successful"
                                         true)
                    /\ Wire.likeCount a' = (Wire.likeCount a + 1)%Z
                    /\ Wire.likedBy a' = Wire.likedBy a ++ [email]))).
Proof.
  intros req db id email r. subst id email r. split; [|split].
  - intro T. unfold Wire.patch_artifact_like. rewrite T. reflexivity.
  - intros T e O. unfold Wire.patch_artifact_like. rewrite T, O. reflexivity.
  - intros T oid O. split.
    + intro H. unfold Wire.patch_artifact_like.
      rewrite T, O. simpl. rewrite (wire_findOne_None oid db H). reflexivity.
    + intros a F S. destruct (wire_toggle_found req db oid a T O F)
        as [db' [R F']].
      rewrite R. simpl. eexists. split; [exact F'|].
      destruct (stable_scalar _ S) as [v E]. rewrite E in *.
      unfold Wire.like_update. split; intro H.
      * pose proof H as I. apply wire_includes_In in I. rewrite I.
        cbn [Wire.apply_update Wire.likedBy Wire.likeCount negb].
        split; [reflexivity|]. split; [lia|]. split.
        -- rewrite (wire_pull_In v _ _ S). tauto.
        -- intro x. apply (wire_pull_In v _ _ S).
      * assert (I : Wire.includes (Wire.likedBy a) (Wire.Scalar v) = false).
        { destruct (Wire.includes (Wire.likedBy a) (Wire.Scalar v)) eqn:I;
            [|reflexivity].
          apply wire_includes_In in I. contradiction. }
        assert (J : Wire.holds (Wire.likedBy a) (Wire.Scalar v) = false).
        { destruct (Wire.holds (Wire.likedBy a) (Wire.Scalar v)) eqn:J;
            [|reflexivity].
          apply wire_holds_In in J. contradiction. }
        rewrite I. cbn [Wire.apply_update Wire.likedBy Wire.likeCount negb].
        split; [reflexivity|]. split; [lia|]. unfold Wire.addToSet.
        rewrite (stable_bson _ S), J. reflexivity.
Qed.

(** The end-to-end example: the first toggle on the new artifact reports
    [liked: true]. *)
Lemma like_toggle_cases_witness :
  fst (Wire.patch_artifact_like
         (Wire.mkRequest urn_id (Wire.Scalar (JStr "u@x.com"))) [Wire.urn]) =
  reply 200 (Toggled "Toggle like status successful" true).
Proof.
  destruct (like_toggle_cases
              (Wire.mkRequest urn_id (Wire.Scalar (JStr "u@x.com")))
              [Wire.urn]) as [_ [_ H]].
  destruct (H eq_refl urn_oid eq_refl) as [_ H1].
  destruct (H1 Wire.urn eq_refl eq_refl) as [a' [_ [_ H2]]].
  apply H2. simpl. tauto.
Defined.

(** ** Emails that the handler never finds in [likedBy]

    The handler looks for the email with [includes], in the array it read
    from the store; the store compares by value what it was sent.  For an
    array the first test never succeeds, and for a string with a lone
    surrogate neither, since the store holds U+FFFD in its place. *)

(** Every toggle with an array for an email is a like. *)
Lemma array_email_always_likes (req : Wire.request) (db : Wire.collection)
    (oid : N) (a : Wire.artifact) (elems : list Wire.json) :
  Wire.body_email req = Wire.Array elems ->
  ObjectId (Wire.params_id req) = Ok oid ->
  Wire.findOne oid db = Some a ->
  exists db',
    Wire.patch_artifact_like req db =
      (reply 200 (Toggled "Toggle like status successful" true), db')
    /\ Wire.findOne oid db' =
         Some (Wire.apply_update (Wire.IncAddToSet 1 (Wire.Array elems)) a).
Proof.
  intros E O F.
  destruct (wire_toggle_found req db oid a) as [db' [R F']];
    [rewrite E; reflexivity | exact O | exact F |].
  unfold Wire.like_update in F'.
  rewrite E, wire_includes_array in *. exists db'. split; assumption.
Qed.

Lemma wire_addToSet_twice (v : Wire.json) (l : list Wire.json) :
  Wire.holds (Wire.addToSet v l) (Wire.bson v) = true ->
  Wire.addToSet v (Wire.addToSet v l) = Wire.addToSet v l.
Proof. intro H. unfold Wire.addToSet at 1. rewrite H. reflexivity. Qed.

(** C1.  Two toggles, one after the other, with the email
    [["u@x.com"]], and two with the string of the lone surrogate D800, on
    the urn as POST /history stored it ([likeCount] 0, [likedBy] empty):
    all four are answered 200, and the urn ends with [likeCount] 2 and one
    member in [likedBy]. *)
Theorem unstable_email_breaks_likeCount :
  let urn_likes (db : Wire.collection) :=
    map (fun a => (Wire.likedBy a, Wire.likeCount a)) db in
  let array := Wire.Array [Wire.Scalar (JStr "u@x.com")] in
  let lone := Wire.Scalar (JStr Wire.lone_surrogate) in
  let by_array :=
    Wire.toggles [Wire.mkRequest urn_id array; Wire.mkRequest urn_id array]
      [Wire.urn] in
  let by_lone :=
    Wire.toggles [Wire.mkRequest urn_id lone; Wire.mkRequest urn_id lone]
      [Wire.urn] in
  urn_likes [Wire.urn] = [([], 0%Z)]
  /\ map status (fst by_array) = [200; 200]%nat
  /\ urn_likes (snd by_array) = [([array], 2%Z)]
  /\ map status (fst by_lone) = [200; 200]%nat
  /\ urn_likes (snd by_lone) = [([Wire.Scalar (JStr Wire.replacement)], 2%Z)].
Proof. repeat split. Qed.

(** C3.  The same toggle twice, with the email [["u@x.com"]] or with the
    string of the lone surrogate D800: both answers are [liked: true], the
    second is not the negation of the first, and [likeCount] is not back at
    what it was. *)
Theorem unstable_email_is_never_unliked :
  let array := Wire.Array [Wire.Scalar (JStr "u@x.com")] in
  let lone := Wire.Scalar (JStr Wire.lone_surrogate) in
  let liked := reply 200 (Toggled "Toggle like status successful" true) in
  forall email,
    email = array \/ email = lone ->
    let req := Wire.mkRequest urn_id email in
    let r1 := Wire.patch_artifact_like req [Wire.urn] in
    let r2 := Wire.patch_artifact_like req (snd r1) in
    fst r1 = liked /\ fst r2 = liked
    /\ map Wire.likeCount (snd r1) = [1%Z]
    /\ map Wire.likeCount (snd r2) = [2%Z]
    /\ map Wire.likeCount (snd r2) <> map Wire.likeCount [Wire.urn].
Proof.
  intros array lone liked email [-> | ->]; repeat split; discriminate.
Qed.

Lemma unstable_email_is_never_unliked_witness :
  let email := Wire.Scalar (JStr Wire.lone_surrogate) in
  let req := Wire.mkRequest urn_id email in
  let r1 := Wire.patch_artifact_like req [Wire.urn] in
  let r2 := Wire.patch_artifact_like req (snd r1) in
  fst r2 = reply 200 (Toggled "Toggle like status successful" true).
Proof.
  apply (unstable_email_is_never_unliked
           (Wire.Scalar (JStr Wire.lone_surrogate)) (or_intror eq_refl)).
Defined.

(** ** The liked listing *)

(** C9.  The urn was liked by [a@x.com] and then by [b@x.com].  A token
    whose email is the array [["a@x.com", "b@x.com"]] is answered 200 with
    the urn, whose [likedBy] does not hold that array: no toggle was ever
    sent with it. *)
Theorem array_email_lists_the_likes_of_others :
  let a := Wire.Scalar (JStr "a@x.com") in
  let b := Wire.Scalar (JStr "b@x.com") in
  let db := snd (Wire.toggles [Wire.mkRequest urn_id a;
                               Wire.mkRequest urn_id b] [Wire.urn]) in
  exists doc,
    db = [doc]
    /\ Wire.likedBy doc = [a; b]
    /\ Wire.sample_verify "t0k3n" = Some (Wire.Array [a; b])
    /\ Wire.get_liked_artifacts Wire.sample_verify (Some "t0k3n") db =
         Wire.Listed [doc]
    /\ ~ In (Wire.Array [a; b]) (Wire.likedBy doc)
    /\ Wire.includes (Wire.likedBy doc) (Wire.Array [a; b]) = false.
Proof.
  eexists. split; [reflexivity|]. repeat split.
  simpl. intros [H | [H | []]]; discriminate.
Qed.

(** For a token whose email is a primitive that the store keeps as it was
    sent, the listing is what [includes] finds. *)
Lemma liked_by_stable (email : Wire.json) (a : Wire.artifact) :
  Wire.stable email = true ->
  Wire.liked_by email a = true <-> In email (Wire.likedBy a).
Proof.
  intro S. unfold Wire.liked_by. rewrite (stable_bson _ S).
  destruct (stable_scalar _ S) as [v ->].
  rewrite orb_false_r. apply wire_holds_In.
Qed.

(** ** The first part is the service on primitive emails

    On the documents whose [likedBy] holds primitives, and for an email that
    is a primitive which the store keeps as it was sent, the like handler of
    [Wire] is [patch_artifact_like]. *)

Lemma on_wire_findOne (oid : N) (db : collection) :
  Wire.findOne oid (map on_wire db) = option_map on_wire (findOne (ById oid) db).
Proof.
  induction db as [|a db IH]; simpl; [reflexivity|].
  destruct (docid_eqb (_id a) (Oid oid)); [reflexivity | exact IH].
Qed.

Lemma on_wire_includes (l : list jsval) (v : jsval) :
  Wire.includes (map Wire.Scalar l) (Wire.Scalar v) = includes l v.
Proof.
  unfold Wire.includes, includes.
  induction l as [|x l IH]; cbn [map existsb]; [reflexivity|].
  rewrite IH. reflexivity.
Qed.

Lemma on_wire_holds (l : list jsval) (v : jsval) :
  Wire.holds (map Wire.Scalar l) (Wire.Scalar v) = includes l v.
Proof.
  unfold Wire.holds, includes.
  induction l as [|x l IH]; cbn [map existsb]; [reflexivity|].
  rewrite IH. reflexivity.
Qed.

Lemma on_wire_list_eqb (l m : list jsval) :
  list_eqb Wire.json_eqb (map Wire.Scalar l) (map Wire.Scalar m) =
  list_eqb jsval_eqb l m.
Proof.
  revert m.
  induction l as [|x l IH]; intros [|y m]; cbn [map list_eqb];
    try reflexivity.
  rewrite IH. reflexivity.
Qed.

Lemma stable_bson_scalar (v : jsval) :
  Wire.stable (Wire.Scalar v) = true -> Wire.bson_scalar v = v /\ bson v = v.
Proof.
  intro S. pose proof (stable_bson _ S) as B. simpl in B.
  split; [congruence|]. destruct v; try reflexivity. discriminate.
Qed.

Lemma on_wire_pull (v : jsval) (l : list jsval) :
  Wire.stable (Wire.Scalar v) = true ->
  Wire.pull (Wire.Scalar v) (map Wire.Scalar l) = map Wire.Scalar (pull v l).
Proof.
  intro S. destruct (stable_bson_scalar v S) as [B1 B2].
  unfold Wire.pull, pull. cbn [Wire.bson]. rewrite B1, B2.
  induction l as [|x l IH]; cbn [map filter]; [reflexivity|].
  change (Wire.json_eqb (Wire.Scalar v) (Wire.Scalar x)) with (jsval_eqb v x).
  destruct (jsval_eqb v x); cbn [negb map]; rewrite IH; reflexivity.
Qed.

Lemma on_wire_addToSet (v : jsval) (l : list jsval) :
  Wire.stable (Wire.Scalar v) = true ->
  Wire.addToSet (Wire.Scalar v) (map Wire.Scalar l) =
  map Wire.Scalar (addToSet v l).
Proof.
  intro S. destruct (stable_bson_scalar v S) as [B1 B2].
  unfold Wire.addToSet, addToSet. cbn [Wire.bson]. rewrite B1, B2.
  rewrite on_wire_holds.
  destruct (includes l v); [reflexivity|]. rewrite map_app. reflexivity.
Qed.

Lemma on_wire_apply (a : artifact) (v : jsval) :
  Wire.stable (Wire.Scalar v) = true ->
  Wire.apply_update (Wire.like_update (on_wire a) (Wire.Scalar v)) (on_wire a) =
  on_wire (apply_update (like_update a v) a).
Proof.
  intro S. unfold Wire.like_update, like_update.
  cbn [on_wire Wire.likedBy]. rewrite on_wire_includes.
  destruct (includes (likedBy a) v);
    unfold Wire.apply_update, apply_update, on_wire;
    cbn [Wire._id Wire.name Wire.image Wire.type Wire.description
         Wire.createdAt Wire.discoveredAt Wire.discoveredBy Wire.location
         Wire.addedBy Wire.likedBy Wire.likeCount _id name image type
         description createdAt discoveredAt discoveredBy location addedBy
         likedBy likeCount].
  - rewrite (on_wire_pull v _ S). reflexivity.
  - rewrite (on_wire_addToSet v _ S). reflexivity.
Qed.

Lemma on_wire_updateOne (oid : N) (u : update) (u' : Wire.update)
    (db : collection) :
  (forall a, Wire.apply_update u' (on_wire a) = on_wire (apply_update u a)) ->
  (forall a, artifact_eqb a (apply_update u a) =
             negb (Wire.modified (on_wire a) (on_wire (apply_update u a)))) ->
  Wire.updateOne oid u' (map on_wire db) =
  (fst (updateOne (ById oid) u db), map on_wire (snd (updateOne (ById oid) u db))).
Proof.
  intros A M. induction db as [|a db IH]; simpl; [reflexivity|].
  destruct (docid_eqb (_id a) (Oid oid)); simpl.
  - rewrite A, M. destruct (Wire.modified _ _); reflexivity.
  - rewrite IH. destruct (updateOne (ById oid) u db). reflexivity.
Qed.

Lemma on_wire_like_update (v : jsval) (liked : bool) (oid : N)
    (db : collection) :
  Wire.stable (Wire.Scalar v) = true ->
  Wire.updateOne oid
    (if liked then Wire.IncPull (-1) (Wire.Scalar v)
     else Wire.IncAddToSet 1 (Wire.Scalar v)) (map on_wire db) =
  (fst (updateOne (ById oid)
          (if liked then IncPull (-1) v else IncAddToSet 1 v) db),
   map on_wire
     (snd (updateOne (ById oid)
             (if liked then IncPull (-1) v else IncAddToSet 1 v) db))).
Proof.
  intro S. apply on_wire_updateOne.
  - intro a. destruct liked; unfold Wire.apply_update, apply_update, on_wire;
      cbn [Wire._id Wire.name Wire.image Wire.type Wire.description
           Wire.createdAt Wire.discoveredAt Wire.discoveredBy Wire.location
           Wire.addedBy Wire.likedBy Wire.likeCount _id name image type
           description createdAt discoveredAt discoveredBy location addedBy
           likedBy likeCount].
    + rewrite (on_wire_pull v _ S). reflexivity.
    + rewrite (on_wire_addToSet v _ S). reflexivity.
  - intro a. rewrite artifact_eqb_likeCount by (destruct liked; simpl; lia).
    unfold Wire.modified.
    replace (Wire.likeCount (on_wire a) =?
             Wire.likeCount (on_wire (apply_update
               (if liked then IncPull (-1) v else IncAddToSet 1 v) a)))%Z
      with false; [reflexivity|].
    symmetry. apply Z.eqb_neq. destruct liked; simpl; lia.
Qed.

(** The two like handlers agree wherever the first one speaks. *)
Lemma like_handlers_agree (req : request) (db : collection) :
  (truthy (body_email (req_body req)) = true ->
   Wire.stable (Wire.Scalar (body_email (req_body req))) = true) ->
  Wire.patch_artifact_like (like_on_wire req) (map on_wire db) =
  (fst (patch_artifact_like req db),
   map on_wire (snd (patch_artifact_like req db))).
Proof.
  intro S. unfold Wire.patch_artifact_like, patch_artifact_like.
  cbn [like_on_wire Wire.params_id Wire.body_email Wire.truthy].
  destruct (truthy (body_email (req_body req))) eqn:T; [|reflexivity].
  specialize (S eq_refl). cbn [negb].
  destruct (ObjectId (params_id req)) as [oid|e]; [|reflexivity].
  cbn [bind try_catch]. rewrite on_wire_findOne.
  destruct (findOne (ById oid) db) as [a|]; [|reflexivity].
  cbn [option_map on_wire Wire.likedBy]. rewrite on_wire_includes.
  rewrite (on_wire_like_update _ (includes (likedBy a)
                                    (body_email (req_body req))) oid db S).
  destruct (updateOne (ById oid)
              (if includes (likedBy a) (body_email (req_body req))
               then IncPull (-1) (body_email (req_body req))
               else IncAddToSet 1 (body_email (req_body req))) db)
    as [result db'].
  cbn [fst snd]. destruct (modifiedCount result =? 1)%nat; reflexivity.
Qed.

(** So do the two on requests handled one after the other. *)
Lemma toggles_agree (reqs : list request) (db : collection) :
  Forall (fun req => truthy (email_of req) = true ->
                     kept_as_sent (email_of req) = true) reqs ->
  Wire.toggles (map like_on_wire reqs) (map on_wire db) =
  (fst (toggles reqs db), map on_wire (snd (toggles reqs db))).
Proof.
  intro K. revert db. induction K as [|req reqs S _ IH]; intro db; simpl.
  - reflexivity.
  - rewrite (like_handlers_agree req db S).
    destruct (patch_artifact_like req db) as [res db1]. cbn [fst snd].
    rewrite IH. destruct (toggles reqs db1) as [rs db2]. reflexivity.
Qed.

(** The three toggles on the new urn, by two users, as [Wire] has them. *)
Example three_toggles_on_wire :
  map (fun a => (Wire.likedBy a, Wire.likeCount a))
    (snd (Wire.toggles
            [Wire.mkRequest urn_id (Wire.Scalar (JStr "u@x.com"));
             Wire.mkRequest urn_id (Wire.Scalar (JStr "v@x.com"));
             Wire.mkRequest urn_id (Wire.Scalar (JStr "u@x.com"))]
            [Wire.urn])) =
  [([Wire.Scalar (JStr "v@x.com")], 1%Z)].
Proof. reflexivity. Qed.

(* ================================================================= *)
(** * Search, with the tables of the store *)

Lemma meta_point_dot (c : N) : is_meta_point c = false -> (c =? 46)%N = false.
Proof.
  intro H. destruct (c =? 46)%N eqn:E; [|reflexivity].
  apply N.eqb_eq in E. subst. discriminate.
Qed.

Lemma compile_points_literal (p : list N) :
  forallb (fun c => negb (is_meta_point c) && negb (c =? 0)%N) p = true ->
  compile_points p = Some (map Point p).
Proof.
  induction p as [|c p IH]; simpl; [reflexivity|].
  rewrite !andb_true_iff, !negb_true_iff.
  intros [[M Z] P]. rewrite (IH P), (meta_point_dot c M), M, Z. reflexivity.
Qed.

Section Tables.

Variable casefold : N -> N.

(** A pattern of literals matches at the start of the subjects that start
    with it, the case of letters aside. *)
Lemma match_points_literals (p s : list N) :
  match_points casefold (map Point p) s = true <->
  exists rest : list N,
    map (caseless casefold) s = map (caseless casefold) p ++ rest.
Proof.
  revert s. induction p as [|c p IH]; intro s; simpl.
  - split; [intros _; eexists; reflexivity | reflexivity].
  - destruct s as [|d s]; simpl.
    + split; [discriminate | intros [rest H]; discriminate].
    + rewrite andb_true_iff, N.eqb_eq, IH. split.
      * intros [E [rest H]]. exists rest. rewrite E, H. reflexivity.
      * intros [rest H]. inversion H as [[H1 H2]]. split; [congruence|].
        exists rest. exact H2.
Qed.

(** It matches somewhere in the subjects that contain it. *)
Lemma search_points_literals (p s : list N) :
  search_points casefold (map Point p) s = true <->
  exists before after : list N,
    map (caseless casefold) s =
    before ++ map (caseless casefold) p ++ after.
Proof.
  induction s as [|d s IH]; cbn [search_points].
  - rewrite orb_false_r, match_points_literals. simpl. split.
    + intros [rest H]. exists [], rest. exact H.
    + intros [[|b before] [after H]]; simpl in H; [|discriminate].
      exists after. exact H.
  - rewrite orb_true_iff, match_points_literals, IH. simpl. split.
    + intros [[rest H] | [before [after H]]].
      * exists [], rest. exact H.
      * exists (caseless casefold d :: before), after. simpl. rewrite H.
        reflexivity.
    + intros [[|b before] [after H]]; simpl in H.
      * left. exists after. exact H.
      * right. inversion H as [[H1 H2]]. exists before, after. exact H2.
Qed.

End Tables.

(** C7, as the specification words it, fails on a search string that the
    store reads as a pattern: whatever the tables of the store, ["."]
    selects the urn, whose name holds no full stop. *)
Lemma search_by_dot_finds_urn :
  (forall casefold engine,
     search_history casefold engine (search_request (Some ".")) urn_db =
       (reply 200 (Documents [urn]), urn_db))
  /\ ~ contains_caseless ascii_only "." "Urn".
Proof.
  split; [reflexivity|].
  unfold contains_caseless.
  change (points ".") with (points "." ++ []).
  intro H.
  assert (S : search_points ascii_only (map Point [46%N]) (points "Urn") = true).
  { apply search_points_literals. exact H. }
  discriminate.
Qed.

(** C7, amended.  GET /history without a [search] parameter, or with an
    empty one, answers with all the artifacts.  With a search string none of
    whose characters is special in a regular expression, it answers with
    exactly the artifacts whose [name] is a string that contains the search
    string, the case of letters aside, in the order of the collection.
    This is so whatever the store takes for the two cases of a letter
    outside ASCII, and whatever it makes of other patterns. *)
Theorem search_literal_is_substring :
  forall (casefold : N -> N) (engine : string -> option (string -> bool))
         (req : request) (db : collection),
    (query_search req = None \/ query_search req = Some "" ->
     search_history casefold engine req db = (reply 200 (Documents db), db))
    /\ (forall s,
          query_search req = Some s -> s <> "" -> literal s = true ->
          exists selects : artifact -> bool,
            search_history casefold engine req db =
              (reply 200 (Documents (filter selects db)), db)
            /\ (forall a, selects a = true <->
                          exists n, name a = JStr n
                                    /\ contains_caseless casefold s n)
            /\ (forall a, In a (filter selects db) <->
                          In a db
                          /\ exists n, name a = JStr n
                                       /\ contains_caseless casefold s n)).
Proof.
  intros casefold engine req db. unfold search_history. split.
  - intros [-> | ->]; reflexivity.
  - intros s Q N L. rewrite Q. cbn [truthy].
    destruct (s =? "") eqn:E; [apply String.eqb_eq in E; contradiction|].
    cbn [negb find_history]. unfold name_regex.
    rewrite (compile_points_literal _ L). cbn [bind try_catch].
    set (selects := fun a : artifact =>
                      match name a with
                      | JStr n =>
                          search_points casefold (map Point (points s))
                            (points n)
                      | _ => false
                      end).
    exists selects.
    assert (S : forall a, selects a = true <->
                          exists n, name a = JStr n
                                    /\ contains_caseless casefold s n).
    { intro a. unfold selects, contains_caseless.
      destruct (name a) as [| |b|z|n];
        try (split; [discriminate | intros [n [H _]]; discriminate]).
      rewrite search_points_literals. split.
      - intro H. exists n. auto.
      - intros [m [H C]]. inversion H. exact C. }
    split; [reflexivity|]. split; [exact S|].
    intro a. rewrite filter_In, S. reflexivity.
Qed.

(** Searching the urn by ["UR"]. *)
Lemma search_literal_is_substring_witness :
  exists selects : artifact -> bool,
    search_history ascii_only no_engine (search_request (Some "UR")) urn_db =
      (reply 200 (Documents (filter selects urn_db)), urn_db)
    /\ (forall a, selects a = true <->
                  exists n, name a = JStr n
                            /\ contains_caseless ascii_only "UR" n)
    /\ (forall a, In a (filter selects urn_db) <->
                  In a urn_db
                  /\ exists n, name a = JStr n
                               /\ contains_caseless ascii_only "UR" n).
Proof.
  destruct (search_literal_is_substring ascii_only no_engine
              (search_request (Some "UR")) urn_db) as [_ H].
  apply H; [reflexivity | discriminate | reflexivity].
Defined.

Example search_by_UR_finds_urn :
  search_history ascii_only no_engine (search_request (Some "UR")) urn_db =
  (reply 200 (Documents [urn]), urn_db).
Proof. reflexivity. Qed.

(** A pattern that the store refuses is answered 500, and any other by the
    test the store compiles it to. *)
Lemma search_by_other_pattern (casefold : N -> N)
    (engine : string -> option (string -> bool)) (req : request)
    (db : collection) (s : string) :
  query_search req = Some s -> s <> "" ->
  compile_points (points s) = None ->
  search_history casefold engine req db =
  match engine s with
  | Some test =>
      (reply 200 (Documents (filter (fun a => match name a with
                                              | JStr n => test n
                                              | _ => false
                                              end) db)), db)
  | None => (reply 500 (Failure "Server error" MongoServerError), db)
  end.
Proof.
  intros Q N C. unfold search_history. rewrite Q. cbn [truthy].
  destruct (s =? "") eqn:E; [apply String.eqb_eq in E; contradiction|].
  cbn [negb find_history]. unfold name_regex. rewrite C.
  destruct (engine s); reflexivity.
Qed.

